(** * The connection-lifecycle manager of the FastAPI backend

    A shallow embedding of [DatabaseManager] (docker-images/fastapi/main.py):
    parameter derivation from the process environment and the injected secret,
    and the connect / is_connected / execute_query / close methods over the
    single owned handle.

    What lives outside the repository is kept outside the model as well:
    - the PostgreSQL driver is a record of state transformers over an
      arbitrary world ([Driver]); every theorem holds for every driver;
    - the JSON decoder is an arbitrary function from text to a decoded value
      or a decode error ([json_loads]);
    - the interpreter's string primitives ([str.strip], [str.upper],
      [str.startswith], [int], [repr]) are written out on ASCII text; code
      points above 127 are left alone, and the interpreter's cap on the number
      of digits [int] accepts is not modelled.
    Calls to the logger do not influence control flow and are left out. *)

From Stdlib Require Import ZArith Ascii String List Bool Lia.
From stdpp Require Import base option list gmap strings pretty.

Local Open Scope Z_scope.

(** ** Interpreter primitives on text *)

Module Py.

Definition code (a : ascii) : Z := Z.of_N (N_of_ascii a).

(** [str.isspace] on one ASCII character: TAB..CR, FS..US and SPACE. *)
Definition is_space (a : ascii) : bool :=
  ((9 <=? code a) && (code a <=? 13)) || ((28 <=? code a) && (code a <=? 32)).

Fixpoint lstrip (s : string) : string :=
  match s with
  | EmptyString => EmptyString
  | String a s' => if is_space a then lstrip s' else s
  end.

Fixpoint rstrip (s : string) : string :=
  match s with
  | EmptyString => EmptyString
  | String a s' =>
      match rstrip s' with
      | EmptyString => if is_space a then EmptyString else String a EmptyString
      | r => String a r
      end
  end.

Definition strip (s : string) : string := rstrip (lstrip s).

Definition upper_char (a : ascii) : ascii :=
  if (97 <=? code a) && (code a <=? 122)
  then ascii_of_N (Z.to_N (code a - 32)) else a.

Fixpoint upper (s : string) : string :=
  match s with
  | EmptyString => EmptyString
  | String a s' => String (upper_char a) (upper s')
  end.

Fixpoint startswith (s p : string) : bool :=
  match p, s with
  | EmptyString, _ => true
  | String b p', String a s' => Ascii.eqb a b && startswith s' p'
  | String _ _, EmptyString => false
  end.

(** [p in s] on two strings: [p] occurs in [s] as a contiguous run. *)
Fixpoint contains (s p : string) : bool :=
  startswith s p ||
  match s with
  | EmptyString => false
  | String _ s' => contains s' p
  end.

(** The truth value of a string: empty strings are falsy. *)
Definition truthy (s : string) : bool :=
  match s with EmptyString => false | String _ _ => true end.

Definition digit_of (a : ascii) : option Z :=
  if (48 <=? code a) && (code a <=? 57) then Some (code a - 48) else None.

(** The digit part of a base-10 literal: decimal digits, with single
    underscores allowed between two digits. [seen] tells whether the
    previous character was a digit. *)
Fixpoint int_digits (acc : Z) (seen : bool) (s : string) : option Z :=
  match s with
  | EmptyString => if seen then Some acc else None
  | String a s' =>
      if Ascii.eqb a "_"
      then (if seen then int_digits acc false s' else None)
      else match digit_of a with
           | Some d => int_digits (10 * acc + d) true s'
           | None => None
           end
  end.

(** [int(s)]: surrounding whitespace is dropped, one sign is allowed. *)
Definition int (s : string) : option Z :=
  match strip s with
  | String "-" r => Z.opp <$> int_digits 0 false r
  | String "+" r => int_digits 0 false r
  | t => int_digits 0 false t
  end.

Definition hex_digit (n : Z) : ascii :=
  ascii_of_N (Z.to_N (if n <? 10 then 48 + n else 87 + n)).

Definition squote : ascii := "'".
Definition dquote : ascii := "034".
Definition backslash : ascii := "\".

Fixpoint has_char (c : ascii) (s : string) : bool :=
  match s with
  | EmptyString => false
  | String a s' => Ascii.eqb a c || has_char c s'
  end.

Fixpoint repr_body (q : ascii) (s : string) : string :=
  match s with
  | EmptyString => EmptyString
  | String a s' =>
      let rest := repr_body q s' in
      if Ascii.eqb a backslash || Ascii.eqb a q then String backslash (String a rest)
      else if code a =? 9 then String backslash (String "t" rest)
      else if code a =? 10 then String backslash (String "n" rest)
      else if code a =? 13 then String backslash (String "r" rest)
      else if (code a <? 32) || (code a =? 127)
      then String backslash
             (String "x" (String (hex_digit (code a / 16))
                            (String (hex_digit (code a mod 16)) rest)))
      else String a rest
  end.

(** [repr(s)]: single quotes unless the text holds a single quote and no
    double quote. *)
Definition repr (s : string) : string :=
  let q := if has_char squote s && negb (has_char dquote s) then dquote else squote in
  String q (repr_body q s +:+ String q EmptyString).

End Py.

(** ** Values, exceptions and results *)

(** A decoded JSON document, as [json.loads] hands it back: [JObj] carries the
    items of the resulting dict (one binding per key), [JFloat] the literal of
    a number that is not an integer. *)
#[warnings="-register-all"]
Inductive json : Type :=
| JNull
| JBool (b : bool)
| JInt (z : Z)
| JFloat (lit : string)
| JStr (s : string)
| JArr (items : list json)
| JObj (items : list (string * json)).

(** The exceptions the manager can meet. [OperationalError] is the driver's
    class of that name, [DatabaseError] stands for every other subclass of the
    driver's [Error], [OtherError] for every other subclass of [Exception].
    Errors raised by the interpreter itself carry no message: their wording
    depends on its version. *)
Inductive exn : Type :=
| ValueError (msg : string)
| TypeError
| KeyError (key : string)
| AttributeError
| OperationalError (msg : string)
| DatabaseError (msg : string)
| OtherError (msg : string).

Definition result (A : Type) : Type := exn + A.

Definition ok {A} (a : A) : result A := inr a.
Definition throw {A} (e : exn) : result A := inl e.

Definition rbind {A B} (m : result A) (k : A -> result B) : result B :=
  match m with
  | inl e => inl e
  | inr a => k a
  end.

(** [try: m  except Exception as e: h e] without state. *)
Definition rcatch {A} (m : result A) (h : exn -> result A) : result A :=
  match m with
  | inl e => h e
  | inr a => inr a
  end.

Declare Scope result_scope.
Delimit Scope result_scope with res.
Notation "'let*' x := m 'in' k" :=
  (rbind m (fun x => k))
  (at level 10, x name, m at level 100, k at level 200, only parsing) : result_scope.
Notation "'check' b 'else' e 'in' k" :=
  (if b then k else throw e)
  (at level 10, b at level 100, e at level 100, k at level 200, only parsing) : result_scope.

(** ** Dict, list and string operations on a decoded document *)

Fixpoint dict_get (key : string) (items : list (string * json)) : option json :=
  match items with
  | [] => None
  | (k, v) :: rest => if String.eqb k key then Some v else dict_get key rest
  end.

Definition is_str (key : string) (v : json) : bool :=
  match v with JStr s => String.eqb s key | _ => false end.

(** [key in v]: key membership on a dict, element membership on a list,
    substring test on a string; any other value is not a container. *)
Definition py_in (key : string) (v : json) : result bool :=
  match v with
  | JObj items => ok (bool_decide (is_Some (dict_get key items)))
  | JArr items => ok (existsb (is_str key) items)
  | JStr s => ok (Py.contains s key)
  | JNull | JBool _ | JInt _ | JFloat _ => throw TypeError
  end.

(** [v[key]] with a string key. *)
Definition py_getitem (v : json) (key : string) : result json :=
  match v with
  | JObj items =>
      match dict_get key items with
      | Some x => ok x
      | None => throw (KeyError key)
      end
  | _ => throw TypeError
  end.

(** [int(s)] as an operation that can raise. *)
Definition py_int (s : string) : result Z :=
  match Py.int s with
  | Some z => ok z
  | None => throw (ValueError ("invalid literal for int() with base 10: " +:+ Py.repr s))
  end.

(** ** ConnectionParameters *)

Record conn_params : Type := ConnParams {
  host : string;
  database : string;
  user : json;
  password : json;
  port : Z;
  connect_timeout : Z;
  application_name : string
}.

Definition msg_no_secret : string := "DATABASE_URL secret not available from Kubernetes".
Definition msg_no_host : string := "DATABASE_HOST not available from environment".
Definition msg_bad_json (e : string) : string := "Invalid JSON in DATABASE_URL secret: " +:+ e.
Definition msg_no_username : string := "Secret missing required 'username' field".
Definition msg_no_password : string := "Secret missing required 'password' field".

Section Derivation.

(** The JSON decoder: the decoded document, or the text of the
    [JSONDecodeError]. *)
Variable json_loads : string -> string + json.

Local Open Scope result_scope.

(** [DatabaseManager.get_connection_params]; [env] is the process
    environment as [os.getenv] reads it. *)
Definition get_connection_params (env : gmap string string) : result conn_params :=
  rcatch
    (let database_host := env !! "DATABASE_HOST" in
     let database_name := default "postgres" (env !! "DATABASE_NAME") in
     let* database_port := py_int (default "5432" (env !! "DATABASE_PORT")) in
     let database_secret := default "" (env !! "DATABASE_URL") in
     check Py.truthy database_secret else ValueError msg_no_secret in
     match database_host with
     | None | Some EmptyString => throw (ValueError msg_no_host)
     | Some database_host =>
         let* secret :=
           match json_loads database_secret with
           | inr v => ok v
           | inl e => throw (ValueError (msg_bad_json e))
           end in
         let* has_user := py_in "username" secret in
         check has_user else ValueError msg_no_username in
         let* has_pass := py_in "password" secret in
         check has_pass else ValueError msg_no_password in
         (* the interpolation of secret['username'] into the log line *)
         let* _ := py_getitem secret "username" in
         let* username := py_getitem secret "username" in
         let* password := py_getitem secret "password" in
         ok {| host := database_host;
               database := database_name;
               user := username;
               password := password;
               port := database_port;
               connect_timeout := 10;
               application_name := "fastapi-stage4v1" |}
     end)
    (fun e => throw e).

End Derivation.

(** ** The database driver *)

(** A column value of a fetched row, or a bind value of a statement. *)
Inductive sqlval : Type :=
| SqlNull
| SqlBool (b : bool)
| SqlInt (z : Z)
| SqlText (s : string).

Definition row : Type := list sqlval.

(** Connections and cursors are driver objects, named by their identity. *)
Definition conn : Type := nat.
Definition cursor : Type := nat.

(** The driver, over an arbitrary state of the outside world [W]: the
    database server, the network and the driver's own objects. Every call may
    raise and may change the world; [conn_closed] reads the [closed] attribute
    of a connection (true when it is not zero). *)
Record Driver (W : Type) : Type := {
  pg_connect : conn_params -> W -> result conn * W;
  conn_closed : conn -> W -> bool;
  conn_set_autocommit : conn -> bool -> W -> result unit * W;
  conn_cursor : conn -> W -> result cursor * W;
  conn_close : conn -> W -> result unit * W;
  cursor_execute : cursor -> string -> option row -> W -> result unit * W;
  cursor_fetchone : cursor -> W -> result (option row) * W;
  cursor_fetchall : cursor -> W -> result (list row) * W;
  cursor_close : cursor -> W -> result unit * W
}.

Arguments pg_connect {W}.
Arguments conn_closed {W}.
Arguments conn_set_autocommit {W}.
Arguments conn_cursor {W}.
Arguments conn_close {W}.
Arguments cursor_execute {W}.
Arguments cursor_fetchone {W}.
Arguments cursor_fetchall {W}.
Arguments cursor_close {W}.

(** The calls made to the driver, recorded in the order they are made. The
    record is kept beside the program state and never read by the program. *)
Inductive call : Type :=
| Connect (p : conn_params)
| SetAutocommit (c : conn) (b : bool)
| NewCursor (c : conn)
| CloseConn (c : conn)
| Execute (cur : cursor) (sql : string) (params : option row)
| Fetchone (cur : cursor)
| Fetchall (cur : cursor)
| CloseCursor (cur : cursor).

Inductive outcome : Type :=
| Raised (e : exn)
| Returned
| GaveConn (c : conn)
| GaveCursor (cur : cursor)
| GaveRow (r : option row)
| GaveRows (rs : list row).

Definition event : Type := call * outcome.

Definition outcome_of {A} (f : A -> outcome) (r : result A) : outcome :=
  match r with
  | inl e => Raised e
  | inr a => f a
  end.

(** ** The manager's state and its monad *)

Record mstate (W : Type) : Type := MState {
  connection : option conn;        (* self.connection *)
  world : W;
  environ : gmap string string;    (* os.environ *)
  trace : list event
}.

Arguments MState {W}.
Arguments connection {W}.
Arguments world {W}.
Arguments environ {W}.
Arguments trace {W}.

Definition set_connection {W} (h : option conn) (st : mstate W) : mstate W :=
  MState h (world st) (environ st) (trace st).

Definition M (W A : Type) : Type := mstate W -> result A * mstate W.

Definition mret {W A} (a : A) : M W A := fun st => (inr a, st).
Definition mraise {W A} (e : exn) : M W A := fun st => (inl e, st).

Definition mbind {W A B} (m : M W A) (k : A -> M W B) : M W B :=
  fun st =>
    match m st with
    | (inl e, st') => (inl e, st')
    | (inr a, st') => k a st'
    end.

(** [try: m  except ... as e: h e]: what [m] did before raising stays done. *)
Definition mcatch {W A} (m : M W A) (h : exn -> M W A) : M W A :=
  fun st =>
    match m st with
    | (inl e, st') => h e st'
    | (inr a, st') => (inr a, st')
    end.

Definition read {W A} (f : mstate W -> A) : M W A := fun st => (inr (f st), st).
Definition assign_connection {W} (h : option conn) : M W unit :=
  fun st => (inr tt, set_connection h st).

(** One call to the driver: run it on the world and record it. *)
Definition driver_call {W A} (c : call) (f : A -> outcome)
    (op : W -> result A * W) : M W A :=
  fun st =>
    let (r, w) := op (world st) in
    (r, MState (connection st) w (environ st) (trace st ++ [(c, outcome_of f r)])).

Declare Scope manager_scope.
Delimit Scope manager_scope with mgr.
Notation "'do' x <- m ; k" :=
  (mbind m (fun x => k))
  (at level 10, x name, m at level 100, k at level 200, only parsing) : manager_scope.

(** ** DatabaseManager *)

(** [result and result[0] == 1] on the value [fetchone] returned: a row is
    truthy when it has a column, and [True == 1] holds in the interpreter. *)
Definition equals_one (v : sqlval) : bool :=
  match v with
  | SqlInt z => z =? 1
  | SqlBool b => b
  | SqlNull | SqlText _ => false
  end.

Definition probe_ok (result : option row) : bool :=
  match result with
  | Some (v :: _) => equals_one v
  | Some [] | None => false
  end.

(** [query.strip().upper().startswith('SELECT')] *)
Definition is_select (query : string) : bool :=
  Py.startswith (Py.upper (Py.strip query)) "SELECT".

Definition reconnect_failed : exn := OperationalError "Failed to reconnect to database".

Section Manager.

Context {W : Type}.
Variable json_loads : string -> string + json.
Variable drv : Driver W.

Local Open Scope manager_scope.

(** The driver calls, each recorded in the trace. *)
Definition do_connect (p : conn_params) : M W conn :=
  driver_call (Connect p) GaveConn (pg_connect drv p).
Definition do_set_autocommit (c : conn) (b : bool) : M W unit :=
  driver_call (SetAutocommit c b) (fun _ => Returned) (conn_set_autocommit drv c b).
Definition do_cursor (c : conn) : M W cursor :=
  driver_call (NewCursor c) GaveCursor (conn_cursor drv c).
Definition do_close (c : conn) : M W unit :=
  driver_call (CloseConn c) (fun _ => Returned) (conn_close drv c).
Definition do_execute (cur : cursor) (sql : string) (params : option row) : M W unit :=
  driver_call (Execute cur sql params) (fun _ => Returned) (cursor_execute drv cur sql params).
Definition do_fetchone (cur : cursor) : M W (option row) :=
  driver_call (Fetchone cur) GaveRow (cursor_fetchone drv cur).
Definition do_fetchall (cur : cursor) : M W (list row) :=
  driver_call (Fetchall cur) GaveRows (cursor_fetchall drv cur).
Definition do_cursor_close (cur : cursor) : M W unit :=
  driver_call (CloseCursor cur) (fun _ => Returned) (cursor_close drv cur).

(** [self.connection and not self.connection.closed] *)
Definition handle_open (st : mstate W) : bool :=
  match connection st with
  | Some c => negb (conn_closed drv c (world st))
  | None => false
  end.

(** [self.connection.cursor()]: an absent handle has no such attribute. *)
Definition handle_cursor : M W cursor :=
  do h <- read connection;
  match h with
  | Some c => do_cursor c
  | None => mraise AttributeError
  end.

(** The [try] block of [DatabaseManager.connect]. *)
Definition connect_body : M W bool :=
  do usable <- read handle_open;
  if usable then mret true
  else
    do conn_params <- (fun st => (get_connection_params json_loads (environ st), st));
    do c <- do_connect conn_params;
    do _ <- assign_connection (Some c);
    do _ <- do_set_autocommit c true;
    do cur <- do_cursor c;
    do _ <- do_execute cur "SELECT 1" None;
    do result <- do_fetchone cur;
    do _ <- do_cursor_close cur;
    if probe_ok result then mret true else mret false.

(** The three handlers of [connect], from the most specific class down. *)
Definition connect_handler (e : exn) : M W bool :=
  match e with
  | OperationalError _ => do _ <- assign_connection None; mret false
  | DatabaseError _ => do _ <- assign_connection None; mret false
  | _ => do _ <- assign_connection None; mret false
  end.

Definition connect : M W bool := mcatch connect_body connect_handler.

(** The [try] block of [DatabaseManager.is_connected]. *)
Definition is_connected_body : M W bool :=
  do usable <- read handle_open;
  if negb usable then mret false
  else
    do cur <- handle_cursor;
    do _ <- do_execute cur "SELECT 1" None;
    do _ <- do_fetchone cur;
    do _ <- do_cursor_close cur;
    mret true.

Definition is_connected : M W bool :=
  mcatch is_connected_body (fun _ => mret false).

(** The [try] block of [DatabaseManager.execute_query]. *)
Definition execute_query_body (query : string) (params : option row)
    : M W (option (list row)) :=
  do alive <- is_connected;
  do _ <- (if negb alive
           then do again <- connect;
                if negb again then mraise reconnect_failed else mret tt
           else mret tt);
  do cur <- handle_cursor;
  do _ <- do_execute cur query params;
  if is_select query
  then do results <- do_fetchall cur;
       do _ <- do_cursor_close cur;
       mret (Some results)
  else do _ <- do_cursor_close cur;
       mret None.

Definition execute_query (query : string) (params : option row)
    : M W (option (list row)) :=
  mcatch (execute_query_body query params) (fun e => mraise e).

(** [DatabaseManager.close] *)
Definition close : M W unit :=
  do usable <- read handle_open;
  if usable
  then do h <- read connection;
       match h with
       | Some c => do_close c
       | None => mraise AttributeError
       end
  else mret tt.

(** The [try] block of [execute_query] in its two halves, to speak of each:
    the reconnect guard, and the sending of the statement on the stored handle
    with the fetch of its rows, if it reads any. *)
Definition send_statement (query : string) (params : option row)
    : M W (option (list row)) :=
  mbind handle_cursor (fun cur =>
  mbind (do_execute cur query params) (fun _ =>
  if is_select query
  then mbind (do_fetchall cur) (fun results =>
       mbind (do_cursor_close cur) (fun _ => mret (Some results)))
  else mbind (do_cursor_close cur) (fun _ => mret None))).

Definition reconnect_guard (alive : bool) : M W unit :=
  if negb alive
  then mbind connect (fun again =>
       if negb again then mraise reconnect_failed else mret tt)
  else mret tt.

End Manager.

(** ** The HTTP layer over the manager

    The module keeps one [DatabaseManager], [db_manager]; its state is the
    [mstate] the handlers run on. A handler returns the value the framework
    serialises, or raises an [HTTPException]. *)

(** What can be raised inside the [try] block of [database_test]: an
    exception coming out of the manager or the interpreter, or the handler's
    own [HTTPException(status_code=503, detail="Database connection failed")]. *)
Inductive handler_exn : Type :=
| FromManager (e : exn)
| Unavailable.

(** A value of a response. [VStrOf e] is [str(e)]: the text of an exception
    is the library's business and is kept symbolic. *)
#[warnings="-register-all"]
Inductive value : Type :=
| VNone
| VBool (b : bool)
| VStr (s : string)
| VStrOf (e : handler_exn)
| VList (items : list value)
| VDict (items : list (string * value)).

Record http_exception : Type := HTTPException {
  status_code : Z;
  detail : value
}.

(** [isinstance(e, psycopg2.Error)] *)
Definition is_pg_error (e : exn) : bool :=
  match e with
  | OperationalError _ | DatabaseError _ => true
  | ValueError _ | TypeError | KeyError _ | AttributeError | OtherError _ => false
  end.

Definition nl : string := String "010" EmptyString.

Definition create_sql : string :=
  nl +:+ "            CREATE TABLE IF NOT EXISTS stage4v1_test (" +:+
  nl +:+ "                id SERIAL PRIMARY KEY," +:+
  nl +:+ "                name VARCHAR(100)," +:+
  nl +:+ "                timestamp TIMESTAMP DEFAULT CURRENT_TIMESTAMP" +:+
  nl +:+ "            )" +:+
  nl +:+ "        ".

Definition insert_sql : string := "INSERT INTO stage4v1_test (name) VALUES (%s)".
Definition insert_params : option row := Some [SqlText "Stage4-v1 Test Record"].
Definition select_sql : string := "SELECT * FROM stage4v1_test ORDER BY id DESC LIMIT 5".
Definition drop_sql : string := "DROP TABLE IF EXISTS stage4v1_test".

(** [str(n)] for the length of a list. *)
Definition str_of_nat (n : nat) : string := pretty n.

Definition test_results (n : nat) : list value :=
  [VStr "✅ Table created successfully";
   VStr "✅ Data inserted successfully";
   VStr ("✅ Data selected successfully: " +:+ str_of_nat n +:+ " rows retrieved");
   VStr "✅ Table dropped successfully"].

Definition db_test_ok (n : nat) : value :=
  VDict [("status", VStr "success");
         ("database_connected", VBool true);
         ("test_results", VList (test_results n));
         ("message", VStr "All database operations completed successfully");
         ("timestamp", VStr "2025-09-11");
         ("service", VStr "fastapi-backend")].

Definition db_test_unavailable (e : exn) : http_exception :=
  HTTPException 503
    (VDict [("error", VStr "Database operation failed");
            ("type", VStr "PostgreSQL Error");
            ("message", VStrOf (FromManager e));
            ("database_connected", VBool false)]).

Definition db_test_failed (e : handler_exn) : http_exception :=
  HTTPException 500
    (VDict [("error", VStr "Database test failed");
            ("type", VStr "Internal Server Error");
            ("message", VStrOf e);
            ("database_connected", VBool false)]).

(** [root], [health_check], [config_info] and [environment_info] read the
    environment only. *)
Definition root (env : gmap string string) : value :=
  VDict [("message", VStr "Agentic AWS Stage4-v1 FastAPI Backend");
         ("status", VStr "running");
         ("version", VStr "1.0.0");
         ("environment", VStr (default "unknown" (env !! "ENVIRONMENT")))].

Definition health_check : value :=
  VDict [("status", VStr "healthy");
         ("timestamp", VStr "2025-09-11");
         ("service", VStr "fastapi-backend")].

Definition config_info (env : gmap string string) : value :=
  VDict [("database_host", VStr (default "not-configured" (env !! "DATABASE_HOST")));
         ("database_name", VStr (default "not-configured" (env !! "DATABASE_NAME")));
         ("database_port", VStr (default "not-configured" (env !! "DATABASE_PORT")));
         ("secret_configured", VBool (Py.truthy (default "" (env !! "DATABASE_URL"))));
         ("environment", VStr (default "unknown" (env !! "ENVIRONMENT")));
         ("service", VStr "fastapi-backend")].

Definition environment_info (env : gmap string string) : value :=
  VDict [("environment_vars",
          VDict [("DATABASE_HOST", VStr (default "not-set" (env !! "DATABASE_HOST")));
                 ("DATABASE_NAME", VStr (default "not-set" (env !! "DATABASE_NAME")));
                 ("DATABASE_PORT", VStr (default "not-set" (env !! "DATABASE_PORT")));
                 ("DATABASE_URL_SET",
                  VStr (if Py.truthy (default "" (env !! "DATABASE_URL"))
                        then "Yes" else "No"))]);
         ("service", VStr "fastapi-backend");
         ("timestamp", VStr "2025-09-11")].

Definition status_response (connected : bool) (error : value)
    (env : gmap string string) : value :=
  VDict [("status", VStr "running");
         ("database_connected", VBool connected);
         ("database_error", error);
         ("timestamp", VStr "2025-09-11");
         ("service", VStr "fastapi-backend");
         ("environment", VStr (default "stage4-v1" (env !! "ENVIRONMENT")))].

Definition msg_status_failed : string := "Failed to establish database connection".

(** The monad of a handler's [try] block: as [M], with [handler_exn]. *)
Definition H (W A : Type) : Type := mstate W -> (handler_exn + A) * mstate W.

Definition hret {W A} (a : A) : H W A := fun st => (inr a, st).
Definition hraise {W A} (e : handler_exn) : H W A := fun st => (inl e, st).

Definition hbind {W A B} (m : H W A) (k : A -> H W B) : H W B :=
  fun st =>
    match m st with
    | (inl e, st') => (inl e, st')
    | (inr a, st') => k a st'
    end.

(** A call into the manager from a handler. *)
Definition manager {W A} (m : M W A) : H W A :=
  fun st =>
    match m st with
    | (inl e, st') => (inl (FromManager e), st')
    | (inr a, st') => (inr a, st')
    end.

Declare Scope handler_scope.
Delimit Scope handler_scope with hdl.
Notation "'hdo' x <- m ; k" :=
  (hbind m (fun x => k))
  (at level 10, x name, m at level 100, k at level 200, only parsing) : handler_scope.

Section Handlers.

Context {W : Type}.
Variable json_loads : string -> string + json.
Variable drv : Driver W.

Local Open Scope manager_scope.
Local Open Scope handler_scope.

(** The startup half of [lifespan]: the outcome of [connect] is only logged,
    and so is an exception. *)
Definition startup : M W unit :=
  mcatch (do _ <- connect json_loads drv; mret tt) (fun _ => mret tt).

(** The shutdown half of [lifespan]. *)
Definition shutdown : M W unit := close drv.

(** [status_check] *)
Definition status_check : M W value :=
  do outcome <-
    mcatch
      (do connected <- connect json_loads drv;
       if connected then mret (true, VNone)
       else mret (false, VStr msg_status_failed))
      (fun e => mret (false, VStrOf (FromManager e)));
  do env <- read environ;
  mret (status_response outcome.1 outcome.2 env).

(** [len(rows)] on what [execute_query] returned. *)
Definition len_rows (rows : option (list row)) : H W nat :=
  match rows with
  | Some l => hret (length l)
  | None => hraise (FromManager TypeError)
  end.

(** The [try] block of [database_test]. *)
Definition database_test_body : H W value :=
  hdo connected <- manager (connect json_loads drv);
  if negb connected then hraise Unavailable
  else
    hdo _ <- manager (execute_query json_loads drv create_sql None);
    hdo _ <- manager (execute_query json_loads drv insert_sql insert_params);
    hdo rows <- manager (execute_query json_loads drv select_sql None);
    hdo n <- len_rows rows;
    hdo _ <- manager (execute_query json_loads drv drop_sql None);
    hret (db_test_ok n).

(** [database_test]: the result, or the [HTTPException] its handlers raise. *)
Definition database_test (st : mstate W) : (http_exception + value) * mstate W :=
  match database_test_body st with
  | (inr v, st') => (inr v, st')
  | (inl (FromManager e), st') =>
      if is_pg_error e then (inl (db_test_unavailable e), st')
      else (inl (db_test_failed (FromManager e)), st')
  | (inl Unavailable, st') => (inl (db_test_failed Unavailable), st')
  end.

End Handlers.

(** ** A JSON decoder to run the scenarios with

    The decoder of the interpreter's library is a parameter of the model. To
    evaluate the manager on concrete secrets, [Json.loads] decodes the JSON
    grammar except the [\u] escape; of a decode error it keeps the reason and
    drops the position. The theorems below do not depend on it. *)

Module Json.

Definition is_ws (a : ascii) : bool :=
  (Py.code a =? 32) || (Py.code a =? 9) || (Py.code a =? 10) || (Py.code a =? 13).

Fixpoint skip_ws (s : string) : string :=
  match s with
  | String a s' => if is_ws a then skip_ws s' else s
  | EmptyString => EmptyString
  end.

Definition unescape (a : ascii) : option ascii :=
  if Ascii.eqb a Py.dquote then Some Py.dquote
  else if Ascii.eqb a Py.backslash then Some Py.backslash
  else if Ascii.eqb a "/" then Some "/"%char
  else if Ascii.eqb a "b" then Some "008"%char
  else if Ascii.eqb a "f" then Some "012"%char
  else if Ascii.eqb a "n" then Some "010"%char
  else if Ascii.eqb a "r" then Some "013"%char
  else if Ascii.eqb a "t" then Some "009"%char
  else None.

(** The text of a string literal after its opening quote, and what follows
    the closing quote. *)
Fixpoint string_body (s : string) : option (string * string) :=
  match s with
  | EmptyString => None
  | String a s' =>
      if Ascii.eqb a Py.dquote then Some (EmptyString, s')
      else if Ascii.eqb a Py.backslash then
        match s' with
        | String b s'' =>
            match unescape b, string_body s'' with
            | Some c, Some (body, rest) => Some (String c body, rest)
            | _, _ => None
            end
        | EmptyString => None
        end
      else if Py.code a <? 32 then None
      else match string_body s' with
           | Some (body, rest) => Some (String a body, rest)
           | None => None
           end
  end.

(** The longest run of decimal digits at the head of [s]. *)
Fixpoint digits (s : string) : string * string :=
  match s with
  | String a s' =>
      match Py.digit_of a with
      | Some _ => let (d, rest) := digits s' in (String a d, rest)
      | None => (EmptyString, s)
      end
  | EmptyString => (EmptyString, EmptyString)
  end.

Definition int_part (s : string) : option (string * string) :=
  match digits s with
  | (EmptyString, _) => None
  | (String "0" (String _ _), _) => Some ("0"%string, match s with String _ r => r | _ => s end)
  | (d, rest) => Some (d, rest)
  end.

Definition frac_part (s : string) : option (string * string) :=
  match s with
  | String "." s' =>
      match digits s' with
      | (EmptyString, _) => None
      | (d, rest) => Some (String "." d, rest)
      end
  | _ => None
  end.

Definition exp_part (s : string) : option (string * string) :=
  match s with
  | String e s' =>
      if Ascii.eqb e "e" || Ascii.eqb e "E" then
        let (sign, s'') :=
          match s' with
          | String "+" r => ("+"%string, r)
          | String "-" r => ("-"%string, r)
          | _ => (EmptyString, s')
          end in
        match digits s'' with
        | (EmptyString, _) => None
        | (d, rest) => Some (String e (sign +:+ d), rest)
        end
      else None
  | EmptyString => None
  end.

Definition number (s : string) : option (json * string) :=
  let (sign, s1) :=
    match s with
    | String "-" r => ("-"%string, r)
    | _ => (EmptyString, s)
    end in
  match int_part s1 with
  | None => None
  | Some (ip, s2) =>
      let (fp, s3) := default (EmptyString, s2) (frac_part s2) in
      let (ep, s4) := default (EmptyString, s3) (exp_part s3) in
      match fp, ep with
      | EmptyString, EmptyString =>
          (fun z => (JInt z, s4)) <$> Py.int (sign +:+ ip)
      | _, _ => Some (JFloat (sign +:+ ip +:+ fp +:+ ep), s4)
      end
  end.

Fixpoint drop_prefix (p s : string) : option string :=
  match p, s with
  | EmptyString, _ => Some s
  | String b p', String a s' => if Ascii.eqb a b then drop_prefix p' s' else None
  | String _ _, EmptyString => None
  end.

Definition constant (s : string) : option (json * string) :=
  match drop_prefix "null" s with Some r => Some (JNull, r) | None =>
  match drop_prefix "true" s with Some r => Some (JBool true, r) | None =>
  match drop_prefix "false" s with Some r => Some (JBool false, r) | None =>
  match drop_prefix "NaN" s with Some r => Some (JFloat "NaN", r) | None =>
  match drop_prefix "Infinity" s with Some r => Some (JFloat "Infinity", r) | None =>
  match drop_prefix "-Infinity" s with Some r => Some (JFloat "-Infinity", r) | None =>
  None end end end end end end.

(** A later binding of a key replaces the value of the earlier one. *)
Fixpoint dict_set (key : string) (v : json) (items : list (string * json))
    : list (string * json) :=
  match items with
  | [] => [(key, v)]
  | (k, x) :: rest =>
      if String.eqb k key then (k, v) :: rest else (k, x) :: dict_set key v rest
  end.

Fixpoint value (fuel : nat) (s : string) : option (json * string) :=
  match fuel with
  | O => None
  | S fuel =>
      match s with
      | String "{" r =>
          match skip_ws r with
          | String "}" r' => Some (JObj [], r')
          | r' => (fun '(items, rest) => (JObj items, rest)) <$> members fuel [] r'
          end
      | String "[" r =>
          match skip_ws r with
          | String "]" r' => Some (JArr [], r')
          | r' => (fun '(items, rest) => (JArr items, rest)) <$> elements fuel r'
          end
      | String a r =>
          if Ascii.eqb a Py.dquote
          then (fun '(body, rest) => (JStr body, rest)) <$> string_body r
          else match constant s with
               | Some res => Some res
               | None => number s
               end
      | EmptyString => None
      end
  end
with elements (fuel : nat) (s : string) : option (list json * string) :=
  match fuel with
  | O => None
  | S fuel =>
      match value fuel (skip_ws s) with
      | Some (v, rest) =>
          match skip_ws rest with
          | String "," r =>
              (fun '(vs, rest') => (v :: vs, rest')) <$> elements fuel r
          | String "]" r => Some ([v], r)
          | _ => None
          end
      | None => None
      end
  end
with members (fuel : nat) (acc : list (string * json)) (s : string)
    : option (list (string * json) * string) :=
  match fuel with
  | O => None
  | S fuel =>
      match skip_ws s with
      | String q r =>
          if Ascii.eqb q Py.dquote then
            match string_body r with
            | Some (key, after_key) =>
                match skip_ws after_key with
                | String ":" r1 =>
                    match value fuel (skip_ws r1) with
                    | Some (v, rest) =>
                        let acc' := dict_set key v acc in
                        match skip_ws rest with
                        | String "," r2 => members fuel acc' r2
                        | String "}" r2 => Some (acc', r2)
                        | _ => None
                        end
                    | None => None
                    end
                | _ => None
                end
            | None => None
            end
          else None
      | EmptyString => None
      end
  end.

Definition loads (s : string) : string + json :=
  match value (S (String.length s)) (skip_ws s) with
  | Some (v, rest) =>
      match skip_ws rest with
      | EmptyString => inr v
      | String _ _ => inl "Extra data"%string
      end
  | None => inl "Expecting value"%string
  end.

End Json.

(** Text with double quotes inside: [quoted "username"] is the JSON string
    literal of [username]. *)
Definition quoted (s : string) : string :=
  String Py.dquote (s +:+ String Py.dquote EmptyString).

Definition secret_u_p : string :=
  "{" +:+ quoted "username" +:+ ":" +:+ quoted "u" +:+ ","
      +:+ quoted "password" +:+ ":" +:+ quoted "p" +:+ "}".

(** ** A simulated database to run the scenarios with

    A small world with one server: it is reachable or not, it answers the
    probe with a fixed row, and it has one result set for every query. The
    theorems below hold for every driver; this one supplies concrete runs. *)

Module Sim.

Record world : Type := World {
  reachable : bool;            (* does the server accept and answer? *)
  answer : option row;         (* what fetchone yields *)
  rows : list row;             (* what fetchall yields *)
  opened : list conn;          (* the connections that are open *)
  fresh : conn                 (* the identity of the next connection *)
}.

Definition is_open (c : conn) (w : world) : bool :=
  bool_decide (c ∈ opened w).

Definition connect (p : conn_params) (w : world) : result conn * world :=
  if reachable w
  then (inr (fresh w),
        World (reachable w) (answer w) (rows w) (fresh w :: opened w) (S (fresh w)))
  else (inl (OperationalError "could not connect to server"), w).

Definition on_open {A} (c : conn) (a : A) (w : world) : result A * world :=
  if is_open c w then (inr a, w)
  else (inl (DatabaseError "connection already closed"), w).

Definition on_live {A} (c : conn) (a : A) (w : world) : result A * world :=
  if negb (is_open c w) then (inl (DatabaseError "cursor already closed"), w)
  else if reachable w then (inr a, w)
  else (inl (OperationalError "server closed the connection unexpectedly"), w).

Definition close (c : conn) (w : world) : result unit * world :=
  (inr tt,
   World (reachable w) (answer w) (rows w)
         (filter (fun c' => c' <> c) (opened w)) (fresh w)).

(** A cursor carries the identity of its connection. *)
Definition driver : Driver world := {|
  pg_connect := connect;
  conn_closed := fun c w => negb (is_open c w);
  conn_set_autocommit := fun c _ => on_open c tt;
  conn_cursor := fun c => on_open c c;
  conn_close := close;
  cursor_execute := fun cur _ _ => on_live cur tt;
  cursor_fetchone := fun cur w => on_live cur (answer w) w;
  cursor_fetchall := fun cur w => on_live cur (rows w) w;
  cursor_close := fun cur w => (inr tt, w)
|}.

Definition env_ok : gmap string string :=
  {[ "DATABASE_HOST" := "db.example"; "DATABASE_URL" := secret_u_p ]}.

Definition one : option row := Some [SqlInt 1].

(** No handle yet; the server is up and holds two rows. *)
Definition up : mstate world :=
  MState None (World true one [[SqlInt 1; SqlText "a"]; [SqlInt 2; SqlText "b"]] [] 0%nat)
         env_ok [].

(** No handle yet; the server cannot be reached. *)
Definition down : mstate world :=
  MState None (World false one [] [] 0%nat) env_ok [].

(** No handle yet; the server answers the probe with 2. *)
Definition odd : mstate world :=
  MState None (World true (Some [SqlInt 2]) [] [] 0%nat) env_ok [].

(** Connection 0 is held and open. *)
Definition held : mstate world :=
  MState (Some 0%nat) (World true one [] [0%nat] 1%nat) env_ok [].

End Sim.

(** ** Vocabulary of the statements *)

(** The diagnostics of the derivation that the specification names: missing
    secret, missing host, malformed secret, missing field. *)
Definition config_error (e : exn) : Prop :=
  e = ValueError msg_no_secret \/
  e = ValueError msg_no_host \/
  (exists d, e = ValueError (msg_bad_json d)) \/
  e = ValueError msg_no_username \/
  e = ValueError msg_no_password.

(** A variable of the environment that is unset or set to the empty text. *)
Definition blank (v : option string) : Prop := v = None \/ v = Some EmptyString.

(** The port the environment asks for: 5432 when [DATABASE_PORT] is unset,
    the integer it spells otherwise. *)
Definition port_of (env : gmap string string) (n : Z) : Prop :=
  match env !! "DATABASE_PORT" with
  | None => n = 5432
  | Some s => Py.int s = Some n
  end.

Definition scenario_env : gmap string string :=
  {[ "DATABASE_URL" := secret_u_p; "DATABASE_HOST" := "db.example" ]}.

(** Reading the trace. *)

Definition is_connect (c : call) : bool :=
  match c with Connect _ => true | _ => false end.

Definition is_close_conn (c : call) : bool :=
  match c with CloseConn _ => true | _ => false end.

(** The liveness probe: the statement [SELECT 1] with no bind values. *)
Definition is_probe (c : call) : bool :=
  match c with
  | Execute _ sql None => String.eqb sql "SELECT 1"
  | _ => false
  end.

(** A statement sent for execution that is not the liveness probe. *)
Definition is_statement (c : call) : bool :=
  match c with
  | Execute _ _ _ => negb (is_probe c)
  | _ => false
  end.

Definition raised (ev : event) : bool :=
  match ev.2 with Raised _ => true | _ => false end.

Fixpoint count_calls (f : call -> bool) (t : list event) : nat :=
  match t with
  | [] => 0%nat
  | ev :: t' => ((if f ev.1 then 1 else 0) + count_calls f t')%nat
  end.

(** [st'] is [st] after some driver calls [evs], the handle left as it was. *)
Definition after {W} (st : mstate W) (evs : list event) (st' : mstate W) : Prop :=
  connection st' = connection st /\
  environ st' = environ st /\
  trace st' = trace st ++ evs.

(** The calls of a [connect] that opens a connection [c] and finds the probe
    answered by [r]. *)
Definition fresh_connect (p : conn_params) (c : conn) (cur : cursor)
    (r : option row) : list event :=
  [(Connect p, GaveConn c);
   (SetAutocommit c true, Returned);
   (NewCursor c, GaveCursor cur);
   (Execute cur "SELECT 1" None, Returned);
   (Fetchone cur, GaveRow r);
   (CloseCursor cur, Returned)].

(** The statements sent for execution on a trace, the liveness probes left
    out, each with its bind values. *)
Definition is_probe_stmt (sql : string) (params : option row) : bool :=
  is_probe (Execute 0%nat sql params).

Fixpoint statements (t : list event) : list (string * option row) :=
  match t with
  | [] => []
  | (Execute _ sql params, _) :: t' =>
      if is_probe_stmt sql params then statements t'
      else (sql, params) :: statements t'
  | _ :: t' => statements t'
  end.

(** The calls of a script that stops at its call number [k], which raises. *)
Definition cut_at (script : list event) (k : nat) (e : exn) : list event :=
  match script !! k with
  | Some (c, _) => take k script ++ [(c, Raised e)]
  | None => script
  end.

(** The calls of a probe on connection [c] that goes through. *)
Definition probe_calls (c : conn) (cur : cursor) (r : option row) : list event :=
  [(NewCursor c, GaveCursor cur);
   (Execute cur "SELECT 1" None, Returned);
   (Fetchone cur, GaveRow r);
   (CloseCursor cur, Returned)].

(** The four statements of [database_test], in the order it sends them. *)
Definition db_test_statements : list (string * option row) :=
  [(create_sql, None); (insert_sql, insert_params);
   (select_sql, None); (drop_sql, None)].

(** Connection 0 is held and its flag says open, but the server is gone. *)
Definition stale : mstate Sim.world :=
  MState (Some 0%nat) (Sim.World false Sim.one [] [0%nat] 1%nat) Sim.env_ok [].

(** Connection 0 is held and open; the server answers every probe with 2. *)
Definition held_odd : mstate Sim.world :=
  MState (Some 0%nat) (Sim.World true (Some [SqlInt 2]) [] [0%nat] 1%nat) Sim.env_ok [].

(** A text without a blank. *)
Fixpoint no_space (p : string) : bool :=
  match p with
  | EmptyString => true
  | String a p' => negb (Py.is_space a) && no_space p'
  end.

(** Where the exception of a failed [execute_query] comes from: it is the
    reconnect error, or the last driver call of the run raised it. *)
Definition from_driver {W} (e : exn) (st' : mstate W) : Prop :=
  e = reconnect_failed \/ exists t0 c, trace st' = t0 ++ [(c, Raised e)].

(** The [HTTPException] the handlers of [database_test] make of [e]. *)
Definition db_test_error (e : exn) : http_exception :=
  if is_pg_error e then db_test_unavailable e else db_test_failed (FromManager e).

(** * Theorems *)

(** ** Parameter derivation *)

Lemma truthy_nonempty (s : string) : s <> EmptyString -> Py.truthy s = true.
Proof. destruct s; [congruence | reflexivity]. Qed.

Lemma port_of_int env n :
  port_of env n -> py_int (default "5432" (env !! "DATABASE_PORT")) = ok n.
Proof.
  unfold port_of, py_int.
  destruct (env !! "DATABASE_PORT") as [s|]; simpl.
  - intros ->. reflexivity.
  - intros ->. reflexivity.
Qed.

Lemma blank_default_falsy v : blank v -> Py.truthy (default "" v) = false.
Proof. intros [-> | ->]; reflexivity. Qed.

Lemma dict_get_in key items v :
  dict_get key items = Some v -> bool_decide (is_Some (dict_get key items)) = true.
Proof. intros ->. apply bool_decide_eq_true. eauto. Qed.

Lemma dict_get_not_in key items :
  dict_get key items = None -> bool_decide (is_Some (dict_get key items)) = false.
Proof. intros ->. apply bool_decide_eq_false. intros [x Hx]. discriminate. Qed.

(** What the derivation does once port, secret and host have passed. *)
Lemma derive_after_checks json_loads env n text h :
  port_of env n ->
  env !! "DATABASE_URL" = Some text -> text <> EmptyString ->
  env !! "DATABASE_HOST" = Some h -> h <> EmptyString ->
  get_connection_params json_loads env =
    match json_loads text with
    | inl e => throw (ValueError (msg_bad_json e))
    | inr secret =>
        rbind (py_in "username" secret) (fun has_user =>
        if has_user then
          rbind (py_in "password" secret) (fun has_pass =>
          if has_pass then
            rbind (py_getitem secret "username") (fun _ =>
            rbind (py_getitem secret "username") (fun username =>
            rbind (py_getitem secret "password") (fun password =>
            ok (ConnParams h (default "postgres" (env !! "DATABASE_NAME"))
                           username password n 10 "fastapi-stage4v1"))))
          else throw (ValueError msg_no_password))
        else throw (ValueError msg_no_username))
    end.
Proof.
  intros Hport Hurl Htext Hhost Hh.
  unfold get_connection_params.
  rewrite (port_of_int _ _ Hport), Hurl, Hhost. simpl.
  rewrite (truthy_nonempty _ Htext).
  destruct h as [|a h']; [congruence|].
  destruct (json_loads text) as [e|secret]; simpl; [reflexivity|].
  destruct (py_in "username" secret) as [e|[|]]; simpl; try reflexivity.
  destruct (py_in "password" secret) as [e|[|]]; simpl; try reflexivity.
  destruct (py_getitem secret "username") as [e|u]; simpl; try reflexivity.
  destruct (py_getitem secret "password") as [e|p]; reflexivity.
Qed.







Lemma invalid_literal_not_config_error (s : string) :
  ~ config_error (ValueError ("invalid literal for int() with base 10: " +:+ s)).
Proof.
  unfold config_error, msg_no_secret, msg_no_host, msg_bad_json,
    msg_no_username, msg_no_password.
  simpl. intros [H | [H | [[d H] | [H | H]]]]; discriminate.
Qed.

Lemma count_calls_app f t1 t2 :
  count_calls f (t1 ++ t2) = (count_calls f t1 + count_calls f t2)%nat.
Proof. induction t1 as [|ev t1 IH]; simpl; [reflexivity | rewrite IH; lia]. Qed.

Section ManagerFacts.

Context {W : Type}.
Variable json_loads : string -> string + json.
Variable drv : Driver W.

(** Case analysis on the next driver call of a run. *)
Ltac next_call :=
  match goal with
  | |- context [match ?x with pair _ _ => _ end] =>
      lazymatch x with
      | context [match _ with _ => _ end] => fail
      | _ => destruct x as [[?|?] ?] eqn:?; simpl
      end
  end.

Ltac unfold_manager :=
  cbv beta iota zeta delta
    [connect connect_body connect_handler is_connected is_connected_body
     execute_query execute_query_body close handle_cursor handle_open
     do_connect do_set_autocommit do_cursor do_close do_execute do_fetchone
     do_fetchall do_cursor_close driver_call assign_connection set_connection
     mcatch mbind mret mraise read
     connection world environ trace].


(** The probe of [is_connected]: its calls, and why it answers as it does. *)
Lemma is_connected_run st :
  exists b st' evs,
    is_connected drv st = (inr b, st') /\
    after st evs st' /\
    count_calls is_connect evs = 0%nat /\
    count_calls is_close_conn evs = 0%nat /\
    (count_calls is_probe evs <= 1)%nat /\
    count_calls is_statement evs = 0%nat /\
    (existsb raised evs = true -> b = false) /\
    (b = true -> handle_open drv st = true) /\
    (handle_open drv st = false -> st' = st).
Proof.
  unfold after. destruct st as [[c|] w env t].
  2:{ exists false, (MState None w env t), []. rewrite app_nil_r.
      repeat split; auto; discriminate. }
  unfold_manager.
  destruct (conn_closed drv c w) eqn:Hclosed; simpl.
  { exists false, (MState (Some c) w env t), []. rewrite app_nil_r.
    repeat split; auto; discriminate. }
  repeat next_call; do 3 eexists; (split; [reflexivity|]); simpl;
    rewrite <- ?app_assoc; simpl;
    repeat split; try reflexivity; try lia; try discriminate; auto.
Qed.

(** Every run of [connect], by cases. *)
Lemma connect_run st :
  exists b st' evs,
    connect json_loads drv st = (inr b, st') /\
    environ st' = environ st /\
    trace st' = trace st ++ evs /\
    (count_calls is_connect evs <= 1)%nat /\
    (count_calls is_probe evs <= 1)%nat /\
    count_calls is_close_conn evs = 0%nat /\
    count_calls is_statement evs = 0%nat /\
    (handle_open drv st = true -> b = true /\ st' = st) /\
    (handle_open drv st = false ->
       (forall e, get_connection_params json_loads (environ st) = inl e ->
                  b = false /\ st' = set_connection None st) /\
       (existsb raised evs = true -> b = false /\ connection st' = None) /\
       (existsb raised evs = false ->
          forall p, get_connection_params json_loads (environ st) = inr p ->
          exists c cur r,
            evs = fresh_connect p c cur r /\
            connection st' = Some c /\
            b = probe_ok r)).
Proof.
  destruct st as [h w env t].
  destruct (handle_open drv (MState h w env t)) eqn:Hopen.
  - exists true, (MState h w env t), [].
    unfold connect, mcatch, connect_body, mbind, read. rewrite Hopen. simpl.
    rewrite app_nil_r. repeat split; auto; discriminate.
  - unfold connect, mcatch, connect_body, mbind, read. rewrite Hopen.
    cbv beta iota. simpl environ.
    destruct (get_connection_params json_loads env) as [e|p] eqn:Hp.
    + exists false, (MState None w env t), [].
      destruct e; simpl; rewrite app_nil_r;
        repeat split; auto; try discriminate; intros ? [=]; auto.
    + unfold_manager. simpl. unfold fresh_connect.
      repeat next_call;
        try match goal with e : exn |- _ => destruct e; simpl end;
        try match goal with
            | |- context [probe_ok ?r] => destruct (probe_ok r) eqn:?; simpl
            end;
        do 3 eexists; (split; [reflexivity|]); simpl;
        rewrite <- ?app_assoc; simpl;
        (split; [reflexivity|]); (split; [reflexivity|]);
        (split; [simpl; lia|]); (split; [simpl; lia|]); (split; [reflexivity|]);
        (split; [reflexivity|]);
        (split; [discriminate|]); intros _;
        (split; [discriminate|]);
        (split; [try discriminate; auto|]);
        try discriminate;
        intros _ p' [= <-]; do 3 eexists; repeat split; congruence.
Qed.

Lemma app_same_nil {A} (t evs : list A) : t = t ++ evs -> evs = [].
Proof.
  intros H. apply (app_inv_head t). rewrite app_nil_r. symmetry. exact H.
Qed.

Lemma fresh_connect_no_raise p c cur r :
  existsb raised (fresh_connect p c cur r) = false.
Proof. reflexivity. Qed.

(** C2, as amended. [connect] returns false and leaves no stored handle
    whenever an error is raised inside it: a failed parameter derivation, or a
    driver call that raises, be it the transport or the authentication failing
    while connecting or the probe failing on the new connection. When the
    probe's row does not match the sentinel it returns false. It returns true
    only when the stored handle was open already, in which case nothing is
    done, or when it opened a connection whose probe returned a row with 1 in
    its first column. *)
Theorem connect_failure_paths (st : mstate W) :
  exists b st' evs,
    connect json_loads drv st = (inr b, st') /\
    trace st' = trace st ++ evs /\
    ((handle_open drv st = false /\
      exists e, get_connection_params json_loads (environ st) = inl e) ->
     b = false /\ connection st' = None) /\
    (existsb raised evs = true -> b = false /\ connection st' = None) /\
    (forall p c cur r,
        evs = fresh_connect p c cur r -> probe_ok r = false -> b = false) /\
    (b = true ->
     (handle_open drv st = true /\ st' = st) \/
     (exists p c cur r,
         evs = fresh_connect p c cur r /\ probe_ok r = true /\
         connection st' = Some c)).
Proof.
  destruct (connect_run st)
    as (b & st' & evs & Hrun & Henv & Htr & _ & _ & _ & _ & Hopen & Hshut).
  exists b, st', evs. split; [exact Hrun|]. split; [exact Htr|].
  destruct (handle_open drv st) eqn:Ho.
  - destruct (Hopen eq_refl) as [-> ->].
    apply app_same_nil in Htr. subst evs.
    split; [intros [[=] _]|]. split; [discriminate|].
    split; [discriminate|]. auto.
  - destruct (Hshut eq_refl) as (Hcfg & Hraise & Hfresh). clear Hopen Hshut.
    split.
    { intros [_ [e He]]. destruct (Hcfg e He) as [-> ->]. auto. }
    split; [exact Hraise|].
    destruct (get_connection_params json_loads (environ st)) as [e|p0] eqn:Hp.
    + destruct (Hcfg e eq_refl) as [-> ->]. simpl in Htr.
      apply app_same_nil in Htr. subst evs.
      split; [discriminate|discriminate].
    + split.
      * intros p c cur r -> Hr.
        destruct (Hfresh (fresh_connect_no_raise p c cur r) p0 eq_refl)
          as (c' & cur' & r' & Heq & _ & ->).
        unfold fresh_connect in Heq. congruence.
      * intros ->. right.
        destruct (existsb raised evs) eqn:Hr.
        { destruct (Hraise eq_refl) as [[=] _]. }
        destruct (Hfresh eq_refl p0 eq_refl) as (c & cur & r & -> & Hc & Hb).
        exists p0, c, cur, r. auto.
Qed.

(** C3, as amended. [connect] is idempotent through the [closed] flag, not
    through a probe: with a stored handle that is not closed it returns true
    and does nothing else, no probe and no connection attempt. So two calls in
    a row over a connection that stays open both return true, with at most one
    probe (hence at most two) and at most one physical connection in all. *)
Theorem connect_idempotent (st : mstate W) :
  (handle_open drv st = true -> connect json_loads drv st = (inr true, st)) /\
  (forall st1,
      connect json_loads drv st = (inr true, st1) ->
      handle_open drv st1 = true ->
      connect json_loads drv st1 = (inr true, st1) /\
      exists evs,
        trace st1 = trace st ++ evs /\
        (count_calls is_probe evs <= 1)%nat /\
        (count_calls is_connect evs <= 1)%nat).
Proof.
  assert (Hopen : forall s, handle_open drv s = true ->
                            connect json_loads drv s = (inr true, s)).
  { intros s Hs.
    destruct (connect_run s) as (b & s' & evs & Hrun & _ & _ & _ & _ & _ & _ & H & _).
    destruct (H Hs) as [-> ->]. exact Hrun. }
  split; [apply Hopen|].
  intros st1 Hfirst Hst1. split; [apply Hopen; exact Hst1|].
  destruct (connect_run st)
    as (b & st' & evs & Hrun & _ & Htr & Hconn & Hprobe & _).
  rewrite Hfirst in Hrun. injection Hrun as <- <-.
  exists evs. auto.
Qed.

(** C8, as amended. On a stored handle that is not closed [close] calls the
    driver's close once and keeps the stored reference, whatever the call
    returns; on an absent or closed handle it does nothing. So a second
    [close], once the driver reports the handle closed, changes nothing. *)
Theorem close_behaviour (st : mstate W) :
  (forall c,
      connection st = Some c -> conn_closed drv c (world st) = false ->
      exists r w,
        conn_close drv c (world st) = (r, w) /\
        close drv st =
          (r, MState (Some c) w (environ st)
                (trace st ++ [(CloseConn c, outcome_of (fun _ => Returned) r)]))) /\
  (handle_open drv st = false -> close drv st = (inr tt, st)) /\
  (forall st1,
      close drv st = (inr tt, st1) -> handle_open drv st1 = false ->
      close drv st1 = (inr tt, st1)).
Proof.
  assert (Hshut : forall s, handle_open drv s = false -> close drv s = (inr tt, s)).
  { intros s Hs. unfold close, mbind, read. rewrite Hs. reflexivity. }
  split; [|split; [apply Hshut | intros st1 _ H1; apply Hshut; exact H1]].
  intros c Hc Hclosed. destruct st as [h w env t]. simpl in *. subst h.
  destruct (conn_close drv c w) as [r w'] eqn:Hclose.
  exists r, w'. split; [reflexivity|].
  unfold_manager. rewrite Hclosed. simpl. rewrite Hclose. reflexivity.
Qed.

(** ** Running a query *)

Lemma execute_query_body_eq query params :
  execute_query_body json_loads drv query params =
  mbind (is_connected drv) (fun alive =>
  mbind (reconnect_guard json_loads drv alive) (fun _ => send_statement drv query params)).
Proof. reflexivity. Qed.

Lemma send_statement_keeps_handle query params s r s' :
  send_statement drv query params s = (r, s') -> connection s' = connection s.
Proof.
  unfold send_statement. destruct s as [[c|] w env t]; unfold_manager; simpl.
  2:{ intros [= <- <-]. reflexivity. }
  destruct (is_select query); repeat next_call; intros [= <- <-]; reflexivity.
Qed.

Lemma send_statement_run query params s r s' :
  send_statement drv query params s = (inr r, s') ->
  exists cur t0,
    (is_select query = true ->
     exists rows w w',
       r = Some rows /\
       cursor_fetchall drv cur w = (inr rows, w') /\
       trace s' = t0 ++ [(Execute cur query params, Returned);
                         (Fetchall cur, GaveRows rows);
                         (CloseCursor cur, Returned)]) /\
    (is_select query = false ->
     r = None /\
     trace s' = t0 ++ [(Execute cur query params, Returned);
                       (CloseCursor cur, Returned)]).
Proof.
  unfold send_statement. destruct s as [[c|] w env t]; unfold_manager; simpl.
  2:{ intros [=]. }
  destruct (is_select query); repeat next_call; intros [= <- <-]; simpl;
    match goal with
    | H : conn_cursor drv c w = (inr ?cur, _) |- _ =>
        exists cur, (t ++ [(NewCursor c, GaveCursor cur)])
    end;
    (split; [|discriminate]) || (split; [discriminate|]); intros _.
  - do 3 eexists. split; [reflexivity|]. split; [eassumption|].
    rewrite <- !app_assoc. reflexivity.
  - split; [reflexivity|]. rewrite <- !app_assoc. reflexivity.
Qed.


(** C1. When [is_connected] answers false and the one [connect] that follows
    answers false too, [execute_query] raises the reconnect error and stops
    there: its final state is the state that [connect] left, so nothing was
    sent after the reconnect attempt. Over the whole call at most one physical
    connection was attempted and no statement other than the liveness probes
    of the two checks reached the database. *)
Theorem execute_query_reconnect_failed query params (st st1 st2 : mstate W) :
  is_connected drv st = (inr false, st1) ->
  connect json_loads drv st1 = (inr false, st2) ->
  execute_query json_loads drv query params st = (inl reconnect_failed, st2) /\
  exists evs,
    trace st2 = trace st ++ evs /\
    (count_calls is_connect evs <= 1)%nat /\
    count_calls is_statement evs = 0%nat.
Proof.
  intros Halive Hagain. split.
  - unfold execute_query, mcatch. rewrite execute_query_body_eq.
    unfold mbind at 1. rewrite Halive.
    unfold mbind at 1. unfold reconnect_guard. simpl.
    unfold mbind at 1. rewrite Hagain. reflexivity.
  - destruct (is_connected_run st)
      as (b & s1 & evs1 & Hrun1 & (_ & _ & Htr1) & Hc1 & _ & _ & Hs1 & _).
    rewrite Halive in Hrun1. injection Hrun1 as <- <-.
    destruct (connect_run st1)
      as (b & s2 & evs2 & Hrun2 & _ & Htr2 & Hc2 & _ & _ & Hs2 & _).
    rewrite Hagain in Hrun2. injection Hrun2 as <- <-.
    exists (evs1 ++ evs2). rewrite Htr2, Htr1, app_assoc.
    rewrite !count_calls_app, Hc1, Hs1, Hs2. repeat split; lia.
Qed.

(** C9. [is_connected] never touches the stored handle: whatever the probe
    does, the handle is the same afterwards and no close was asked of the
    driver, and a probe that raises makes it answer false. [close] keeps the
    stored reference as well, and so does [execute_query] once
    [is_connected] has answered true. The reference is dropped in [connect]
    only, and only on its failure path: when [connect] leaves no handle where
    there was one, it answers false and either the derivation of the
    parameters failed or a driver call raised. *)
Theorem is_connected_keeps_handle (st : mstate W) :
  (exists b st' evs,
      is_connected drv st = (inr b, st') /\
      connection st' = connection st /\
      trace st' = trace st ++ evs /\
      count_calls is_close_conn evs = 0%nat /\
      (existsb raised evs = true -> b = false)) /\
  (forall r st', close drv st = (r, st') -> connection st' = connection st) /\
  (forall query params st1 r st',
      is_connected drv st = (inr true, st1) ->
      execute_query json_loads drv query params st = (r, st') ->
      connection st' = connection st) /\
  (forall b st',
      connect json_loads drv st = (inr b, st') ->
      connection st <> None -> connection st' = None ->
      b = false /\
      ((exists e, get_connection_params json_loads (environ st) = inl e) \/
       (exists evs, trace st' = trace st ++ evs /\ existsb raised evs = true))).
Proof.
  destruct (is_connected_run st)
    as (b & s1 & evs & Hrun & (Hc & _ & Htr) & _ & Hclose & _ & _ & Hraise & _).
  split; [exists b, s1, evs; auto|]. split; [|split].
  - intros r st'. destruct st as [[c|] w env t]; unfold_manager; simpl.
    + destruct (conn_closed drv c w); simpl;
        [intros [= <- <-]; reflexivity|].
      next_call; intros [= <- <-]; reflexivity.
    + intros [= <- <-]. reflexivity.
  - intros query params st1 r st' Halive.
    rewrite Halive in Hrun. injection Hrun as <- <-.
    unfold execute_query, mcatch. rewrite execute_query_body_eq.
    unfold mbind at 1. rewrite Halive.
    unfold mbind at 1. unfold reconnect_guard. simpl.
    destruct (send_statement drv query params st1) as [[e|r0] s3] eqn:Hsend;
      intros [= <- <-];
      rewrite (send_statement_keeps_handle _ _ _ _ _ Hsend); exact Hc.
  - intros b' st' Hconn Hsome Hnone.
    destruct (connect_run st)
      as (b2 & s2 & evs2 & Hrun2 & _ & Htr2 & _ & _ & _ & _ & Hopen & Hshut).
    rewrite Hconn in Hrun2. injection Hrun2 as <- <-.
    destruct (handle_open drv st) eqn:Ho.
    + destruct (Hopen eq_refl) as [_ ->]. congruence.
    + destruct (Hshut eq_refl) as (Hcfg & Hr & Hfresh).
      destruct (get_connection_params json_loads (environ st)) as [e|p] eqn:Hp.
      * destruct (Hcfg e eq_refl) as [-> _]. split; [reflexivity|]. left. eauto.
      * destruct (existsb raised evs2) eqn:Hev.
        -- destruct (Hr eq_refl) as [-> _]. split; [reflexivity|]. right. eauto.
        -- destruct (Hfresh eq_refl p eq_refl) as (c & _ & _ & _ & Hc' & _).
           congruence.
Qed.


End ManagerFacts.

(** ** Concrete runs on the simulated database *)

(** C2 as stated fails twice. An open stored handle makes [connect] answer
    true although no probe was ever made; and a probe answered by 2 makes it
    answer false while the handle just opened stays stored. *)
Lemma connect_claim_fails :
  ~ (forall (W : Type) json_loads (drv : Driver W) (st st' : mstate W),
        connect json_loads drv st = (inr true, st') ->
        exists cur r, In (Fetchone cur, GaveRow r) (trace st') /\ probe_ok r = true) /\
  ~ (forall (W : Type) json_loads (drv : Driver W) (st st' : mstate W),
        connect json_loads drv st = (inr false, st') ->
        connection st' = None).
Proof.
  split; intros H.
  - destruct (H _ Json.loads Sim.driver Sim.held Sim.held) as (cur & r & Hin & _).
    + vm_compute. reflexivity.
    + exact Hin.
  - specialize (H _ Json.loads Sim.driver Sim.odd
                  (connect Json.loads Sim.driver Sim.odd).2).
    assert (Hrun : connect Json.loads Sim.driver Sim.odd =
                   (inr false, (connect Json.loads Sim.driver Sim.odd).2))
      by (vm_compute; reflexivity).
    specialize (H Hrun). vm_compute in H. discriminate.
Qed.

Lemma connect_failure_paths_witness :
  exists st', connect Json.loads Sim.driver Sim.down = (inr false, st') /\
              connection st' = None.
Proof.
  destruct (connect_failure_paths Json.loads Sim.driver Sim.down)
    as (b & st' & evs & Hrun & Htr & _ & Hraise & _).
  assert (Hev : existsb raised evs = true).
  { assert (Hd : existsb raised
                   (trace (connect Json.loads Sim.driver Sim.down).2) = true)
      by (vm_compute; reflexivity).
    rewrite Hrun in Hd. simpl in Hd. rewrite Htr in Hd. exact Hd. }
  destruct (Hraise Hev) as [-> Hnone].
  exists st'. split; assumption.
Defined.

(** C3 as stated fails: with connection 0 stored and open, [connect] returns
    without a single probe. *)
Lemma connect_open_handle_no_probe :
  ~ (forall (W : Type) json_loads (drv : Driver W) (st : mstate W) c,
        connection st = Some c ->
        exists b st' evs,
          connect json_loads drv st = (b, st') /\
          trace st' = trace st ++ evs /\
          (1 <= count_calls is_probe evs)%nat).
Proof.
  intros H.
  destruct (H _ Json.loads Sim.driver Sim.held 0%nat eq_refl)
    as (b & st' & evs & Hrun & Htr & Hn).
  vm_compute in Hrun. injection Hrun as <- <-.
  simpl in Htr. subst evs. simpl in Hn. lia.
Qed.

Lemma connect_idempotent_witness :
  connect Json.loads Sim.driver Sim.up =
    (inr true, (connect Json.loads Sim.driver Sim.up).2) /\
  connect Json.loads Sim.driver (connect Json.loads Sim.driver Sim.up).2 =
    (inr true, (connect Json.loads Sim.driver Sim.up).2).
Proof.
  assert (H1 : connect Json.loads Sim.driver Sim.up =
               (inr true, (connect Json.loads Sim.driver Sim.up).2))
    by (vm_compute; reflexivity).
  split; [exact H1|].
  apply (proj2 (connect_idempotent Json.loads Sim.driver Sim.up) _ H1).
  vm_compute. reflexivity.
Defined.

(** C8 as stated fails: after [close] on the open handle 0 the manager still
    stores the reference. *)
Lemma close_keeps_reference :
  ~ (forall (W : Type) (drv : Driver W) (st : mstate W),
        handle_open drv st = true -> connection (close drv st).2 = None).
Proof.
  intros H. specialize (H _ Sim.driver Sim.held eq_refl).
  vm_compute in H. discriminate.
Qed.

Lemma close_behaviour_witness :
  close Sim.driver (close Sim.driver Sim.held).2 =
    (inr tt, (close Sim.driver Sim.held).2) /\
  connection (close Sim.driver Sim.held).2 = Some 0%nat.
Proof.
  split.
  - apply (proj2 (proj2 (close_behaviour Sim.driver Sim.held))).
    + vm_compute. reflexivity.
    + vm_compute. reflexivity.
  - vm_compute. reflexivity.
Defined.

Lemma execute_query_reconnect_failed_witness :
  execute_query Json.loads Sim.driver "SELECT * FROM stage4v1_test" None Sim.down =
    (inl reconnect_failed,
     (connect Json.loads Sim.driver (is_connected Sim.driver Sim.down).2).2).
Proof.
  apply (execute_query_reconnect_failed Json.loads Sim.driver
           "SELECT * FROM stage4v1_test" None Sim.down
           (is_connected Sim.driver Sim.down).2
           (connect Json.loads Sim.driver (is_connected Sim.driver Sim.down).2).2).
  - vm_compute. reflexivity.
  - vm_compute. reflexivity.
Defined.


Lemma is_connected_keeps_handle_witness :
  connection (close Sim.driver Sim.held).2 = Some 0%nat /\
  connection (execute_query Json.loads Sim.driver "DROP TABLE t" None Sim.held).2
    = Some 0%nat.
Proof.
  destruct (is_connected_keeps_handle Json.loads Sim.driver Sim.held)
    as (_ & Hclose & Hexec & _).
  split.
  - apply (Hclose (close Sim.driver Sim.held).1). apply surjective_pairing.
  - apply (Hexec "DROP TABLE t" None (is_connected Sim.driver Sim.held).2
             (execute_query Json.loads Sim.driver "DROP TABLE t" None Sim.held).1).
    + vm_compute. reflexivity.
    + apply surjective_pairing.
Defined.


(** ** Checks of the text primitives and the decoder *)

Example int_accepts_padding_sign_and_underscores :
  Py.int "5432" = Some 5432 /\ Py.int " -1_0 " = Some (-10) /\
  Py.int "abc" = None /\ Py.int "1__0" = None /\ Py.int "" = None.
Proof. repeat split; reflexivity. Qed.

Example is_select_examples :
  is_select "  select 1 " = true /\
  is_select "SELECT * FROM stage4v1_test ORDER BY id DESC LIMIT 5" = true /\
  is_select "DROP TABLE IF EXISTS stage4v1_test" = false /\
  is_select "WITH t AS (SELECT 1) SELECT * FROM t" = false.
Proof. repeat split; reflexivity. Qed.

Example loads_secret :
  Json.loads secret_u_p = inr (JObj [("username", JStr "u"); ("password", JStr "p")]).
Proof. vm_compute. reflexivity. Qed.

Example loads_examples :
  Json.loads "[1, 2.5e3, null, true, {}]" =
    inr (JArr [JInt 1; JFloat "2.5e3"; JNull; JBool true; JObj []]) /\
  Json.loads "not json" = inl "Expecting value" /\
  Json.loads "01" = inl "Extra data".
Proof. repeat split; vm_compute; reflexivity. Qed.

(** * Further properties of the code *)

(** ** Parameter derivation, both ways *)

Lemma py_int_ok_port env n :
  py_int (default "5432" (env !! "DATABASE_PORT")) = ok n -> port_of env n.
Proof.
  unfold port_of, py_int.
  destruct (env !! "DATABASE_PORT") as [s|]; simpl.
  - destruct (Py.int s); intros [=]. congruence.
  - intros H. vm_compute in H. congruence.
Qed.

Lemma py_int_raises_value_error s e :
  py_int s = throw e -> exists m, e = ValueError m.
Proof. unfold py_int. destruct (Py.int s); intros [=]. eauto. Qed.

Lemma nonempty_string a s : String a s <> EmptyString.
Proof. discriminate. Qed.

(** X1. [get_connection_params] returns parameters exactly when the host
    is set and not empty, the secret is set, not empty and decodes to a JSON
    object with the keys [username] and [password], and [DATABASE_PORT] is
    unset or spells an integer; the record is then the one built from these.
    A secret that decodes to anything but an object never gives parameters. *)
Lemma derive_stops_early json_loads env :
  (forall e, py_int (default "5432" (env !! "DATABASE_PORT")) = throw e ->
             get_connection_params json_loads env = throw e) /\
  (forall n, port_of env n ->
     (blank (env !! "DATABASE_URL") ->
      get_connection_params json_loads env = throw (ValueError msg_no_secret)) /\
     (forall text, env !! "DATABASE_URL" = Some text -> text <> EmptyString ->
        blank (env !! "DATABASE_HOST") ->
        get_connection_params json_loads env = throw (ValueError msg_no_host))).
Proof.
  split.
  - intros e He. unfold get_connection_params. rewrite He. reflexivity.
  - intros n Hport. split.
    + intros Hsecret. unfold get_connection_params.
      rewrite (port_of_int _ _ Hport). simpl.
      rewrite (blank_default_falsy _ Hsecret). reflexivity.
    + intros text Hurl Htext Hhost. unfold get_connection_params.
      rewrite (port_of_int _ _ Hport), Hurl. simpl.
      rewrite (truthy_nonempty _ Htext).
      destruct Hhost as [-> | ->]; reflexivity.
Qed.

Lemma blank_or_not (v : option string) :
  blank v \/ exists s, v = Some s /\ s <> EmptyString.
Proof.
  destruct v as [[|a s]|]; unfold blank.
  - left. right. reflexivity.
  - right. exists (String a s). split; [reflexivity | discriminate].
  - left. left. reflexivity.
Qed.

Lemma bool_decide_some {A} (x : A) : bool_decide (is_Some (Some x)) = true.
Proof. apply bool_decide_eq_true. eauto. Qed.

Lemma bool_decide_none {A} : bool_decide (is_Some (@None A)) = false.
Proof. apply bool_decide_eq_false. intros [x Hx]. discriminate. Qed.

(** How the derivation ends once port, secret and host have passed and the
    secret has been decoded. *)
Lemma derive_on_secret h name n (secret : json) :
  let finish :=
    rbind (py_in "username" secret) (fun has_user =>
    if has_user then
      rbind (py_in "password" secret) (fun has_pass =>
      if has_pass then
        rbind (py_getitem secret "username") (fun _ =>
        rbind (py_getitem secret "username") (fun username =>
        rbind (py_getitem secret "password") (fun password =>
        ok (ConnParams h name username password n 10 "fastapi-stage4v1"))))
      else throw (ValueError msg_no_password))
    else throw (ValueError msg_no_username)) in
  (forall cp, finish = ok cp ->
     exists items u p,
       secret = JObj items /\ dict_get "username" items = Some u /\
       dict_get "password" items = Some p /\
       cp = ConnParams h name u p n 10 "fastapi-stage4v1") /\
  (forall e, finish = throw e -> (exists m, e = ValueError m) \/ e = TypeError).
Proof.
  intros finish. subst finish.
  destruct secret as [| | | |s|l|items];
    try (simpl; split; [discriminate | intros e [= <-]; right; reflexivity]);
    unfold py_in, ok, throw; cbn [rbind].
  - destruct (Py.contains s "username");
      [|split; [discriminate | intros e [= <-]; left; eauto]].
    destruct (Py.contains s "password"); simpl;
      split; try discriminate; intros e [= <-]; eauto.
  - destruct (existsb (is_str "username") l);
      [|split; [discriminate | intros e [= <-]; left; eauto]].
    destruct (existsb (is_str "password") l); simpl;
      split; try discriminate; intros e [= <-]; eauto.
  - unfold py_getitem.
    destruct (dict_get "username" items) as [u|] eqn:Hu.
    2:{ rewrite bool_decide_none.
        split; [discriminate | intros e [= <-]; left; eauto]. }
    rewrite bool_decide_some.
    destruct (dict_get "password" items) as [p|] eqn:Hp.
    2:{ rewrite bool_decide_none.
        split; [discriminate | intros e [= <-]; left; eauto]. }
    rewrite bool_decide_some.
    cbn [rbind]. split; [|discriminate].
    intros cp [= <-]. exists items, u, p. auto.
Qed.





(** ** The manager on the wire *)

Arguments is_probe_stmt : simpl never.

Lemma is_probe_any_cursor cur sql params :
  is_probe (Execute cur sql params) = is_probe_stmt sql params.
Proof. reflexivity. Qed.

Lemma statements_app t1 t2 :
  statements (t1 ++ t2) = statements t1 ++ statements t2.
Proof.
  induction t1 as [|[c o] t1 IH]; simpl; [reflexivity|].
  destruct c; try exact IH.
  destruct (is_probe_stmt sql params); simpl; rewrite IH; reflexivity.
Qed.

Lemma statements_none t :
  count_calls is_statement t = 0%nat -> statements t = [].
Proof.
  induction t as [|[c o] t IH]; [reflexivity|].
  destruct c; try exact IH.
  cbn -[is_probe is_probe_stmt]. rewrite is_probe_any_cursor.
  destruct (is_probe_stmt sql params); simpl; [exact IH | discriminate].
Qed.

Lemma last_raised_app (t evs : list event) e :
  (exists t0 c, evs = t0 ++ [(c, Raised e)]) ->
  exists t0 c, t ++ evs = t0 ++ [(c, Raised e)].
Proof.
  intros (t0 & c & ->). exists (t ++ t0), c. apply app_assoc.
Qed.

Section ManagerOnTheWire.

Context {W : Type}.
Variable json_loads : string -> string + json.
Variable drv : Driver W.

Ltac next_driver_call :=
  match goal with
  | |- context [match ?x with pair _ _ => _ end] =>
      lazymatch x with
      | context [match _ with _ => _ end] => fail
      | _ => destruct x as [[?|?] ?] eqn:?; simpl
      end
  end.

Ltac unfold_methods :=
  cbv beta iota zeta delta
    [connect connect_body connect_handler is_connected is_connected_body
     execute_query execute_query_body close handle_cursor handle_open
     send_statement reconnect_guard
     do_connect do_set_autocommit do_cursor do_close do_execute do_fetchone
     do_fetchall do_cursor_close driver_call assign_connection set_connection
     mcatch mbind mret mraise read
     connection world environ trace].

(** X3. The driver calls of one [connect] are none at all, or an initial
    run of: connect, switch autocommit on, open a cursor, execute the probe,
    fetch one row, close the cursor; the run stops at the first call that
    raises. So autocommit is on before any statement is executed on a new
    connection, and [connect] never asks the driver to close a connection,
    not even the one it has just opened when the probe fails. *)
Theorem connect_call_sequence (st : mstate W) :
  exists b st' evs,
    connect json_loads drv st = (inr b, st') /\
    trace st' = trace st ++ evs /\
    (evs = [] \/
     exists p c cur r,
       evs = fresh_connect p c cur r \/
       exists k e, (k < 6)%nat /\ evs = cut_at (fresh_connect p c cur r) k e) /\
    count_calls is_close_conn evs = 0%nat.
Proof.
  destruct st as [h w env t].
  destruct (handle_open drv (MState h w env t)) eqn:Hopen.
  - exists true, (MState h w env t), [].
    unfold connect, mcatch, connect_body, mbind, read. rewrite Hopen. simpl.
    rewrite app_nil_r. auto.
  - unfold connect, mcatch, connect_body, mbind, read. rewrite Hopen.
    cbv beta iota. simpl environ.
    destruct (get_connection_params json_loads env) as [e|p] eqn:Hp.
    + exists false, (MState None w env t), [].
      destruct e; simpl; rewrite app_nil_r; auto.
    + unfold_methods. simpl.
      repeat next_driver_call;
        try match goal with
            | |- context [probe_ok ?r] => destruct (probe_ok r) eqn:?; simpl
            end;
        try match goal with e : exn |- _ => destruct e; simpl end;
        do 3 eexists; (split; [reflexivity|]); simpl;
        rewrite <- ?app_assoc; simpl;
        (split; [reflexivity|]); (split; [|reflexivity]); right.
      all: try (exists p, 0%nat, 0%nat, None; right;
                eexists 0%nat, _; split; [lia | reflexivity]).
      all: try (exists p, c, 0%nat, None; right;
                eexists 1%nat, _; split; [lia | reflexivity]).
      all: try (exists p, c, 0%nat, None; right;
                eexists 2%nat, _; split; [lia | reflexivity]).
      all: try (exists p, c, c0, None; right;
                eexists 3%nat, _; split; [lia | reflexivity]).
      all: try (exists p, c, c0, None; right;
                eexists 4%nat, _; split; [lia | reflexivity]).
      all: try (exists p, c, c0, o; right;
                eexists 5%nat, _; split; [lia | reflexivity]).
      all: exists p, c, c0, o; left; reflexivity.
Qed.

(** X4. [is_connected] answers true exactly when a handle is stored, its
    flag says open, and none of the four calls of the probe raises. The row
    the probe fetches is not looked at: a probe answered by no row, or by a
    row other than 1, still counts as connected. *)
Theorem is_connected_true_iff (st : mstate W) :
  exists b st' evs,
    is_connected drv st = (inr b, st') /\
    trace st' = trace st ++ evs /\
    (b = true <-> handle_open drv st = true /\ existsb raised evs = false) /\
    (b = true ->
     exists c cur r, connection st = Some c /\ evs = probe_calls c cur r) /\
    (forall c cur r,
        connection st = Some c -> evs = probe_calls c cur r -> b = true).
Proof.
  destruct st as [[c|] w env t].
  2:{ exists false, (MState None w env t), []. simpl. rewrite app_nil_r.
      split; [reflexivity|]. split; [reflexivity|].
      split; [split; [discriminate | intros [[=] _]]|].
      split; [discriminate | discriminate]. }
  unfold_methods.
  destruct (conn_closed drv c w) eqn:Hclosed; simpl.
  { exists false, (MState (Some c) w env t), []. simpl. rewrite app_nil_r.
    split; [reflexivity|]. split; [reflexivity|].
    split; [split; [discriminate | intros [[=] _]]|].
    split; [discriminate | discriminate]. }
  repeat next_driver_call; do 3 eexists; (split; [reflexivity|]); simpl;
    rewrite <- ?app_assoc; simpl; (split; [reflexivity|]);
    (split; [split; [try discriminate; auto | intros [_ [=]]; auto]|]);
    (split; [try discriminate; intros _; eauto | try discriminate; auto]).
Qed.

(** Every run of the statement half of [execute_query], by cases. *)
Lemma send_statement_cases query params (s : mstate W) :
  exists r s' evs,
    send_statement drv query params s = (r, s') /\
    connection s' = connection s /\
    environ s' = environ s /\
    trace s' = trace s ++ evs /\
    count_calls is_connect evs = 0%nat /\
    count_calls is_close_conn evs = 0%nat /\
    (statements evs = [] \/ statements evs = [(query, params)]) /\
    (forall v, r = inr v -> is_probe_stmt query params = false ->
               statements evs = [(query, params)]) /\
    (forall v, r = inr v ->
               (is_select query = true ->
                exists rows cur, v = Some rows /\ In (Fetchall cur, GaveRows rows) evs) /\
               (is_select query = false -> v = None)) /\
    (forall e, r = inl e ->
               (connection s = None /\ e = AttributeError) \/
               exists t0 c, evs = t0 ++ [(c, Raised e)]).
Proof.
  destruct s as [[c|] w env t]; unfold_methods; simpl.
  2:{ exists (inl AttributeError), (MState None w env t), [].
      rewrite app_nil_r. repeat split; auto; try discriminate.
      intros e [= <-]. auto. }
  destruct (is_select query) eqn:Hsel.
  all: repeat next_driver_call;
    do 3 eexists; (split; [reflexivity|]); simpl;
    rewrite <- ?app_assoc; simpl;
    (split; [reflexivity|]); (split; [reflexivity|]); (split; [reflexivity|]);
    (split; [reflexivity|]); (split; [reflexivity|]);
    cbn -[is_probe_stmt];
    (split; [destruct (is_probe_stmt query params); auto|]);
    (split; [try discriminate; intros v _ ->; reflexivity|]);
    (split; [first [discriminate
                   | intros v [= <-];
                     (split; [first [discriminate
                                    | intros _; do 2 eexists;
                                      split; [reflexivity | simpl; eauto 6]]
                             | first [discriminate | reflexivity]])]|]);
    try discriminate; intros e' [= <-]; right.
  all: try (exists [], (NewCursor c); reflexivity).
  all: try (eexists [_], _; reflexivity).
  all: try (eexists [_; _], _; reflexivity).
  all: try (eexists [_; _; _], _; reflexivity).
Qed.

(** Every run of [execute_query], by cases. *)
Lemma execute_query_run query params (st : mstate W) :
  exists r st' evs,
    execute_query json_loads drv query params st = (r, st') /\
    environ st' = environ st /\
    trace st' = trace st ++ evs /\
    (count_calls is_connect evs <= 1)%nat /\
    count_calls is_close_conn evs = 0%nat /\
    (statements evs = [] \/ statements evs = [(query, params)]) /\
    (forall v, r = inr v -> is_probe_stmt query params = false ->
               statements evs = [(query, params)]) /\
    (forall v, r = inr v ->
               (is_select query = true ->
                exists rows cur, v = Some rows /\ In (Fetchall cur, GaveRows rows) evs) /\
               (is_select query = false -> v = None)) /\
    (forall e, r = inl e ->
               e = reconnect_failed \/
               exists t0 c, trace st' = t0 ++ [(c, Raised e)]).
Proof.
  destruct (is_connected_run drv st)
    as (alive & s1 & evs1 & Hrun1 & (Hc1 & He1 & Ht1) & Hn1 & Hx1 & _ & Hs1 & _ & Ho1 & _).
  unfold execute_query, mcatch. rewrite execute_query_body_eq.
  unfold mbind at 1. rewrite Hrun1.
  apply statements_none in Hs1.
  destruct alive.
  - (* the handle answered: no reconnect *)
    unfold mbind at 1. unfold reconnect_guard. simpl.
    destruct (send_statement_cases query params s1)
      as (r & s2 & evs2 & Hrun2 & Hc2 & He2 & Ht2 & Hn2 & Hx2 & Hst2 & Hok2 & Hsel2 & Herr2).
    exists r, s2, (evs1 ++ evs2).
    split; [rewrite Hrun2; destruct r; reflexivity|].
    split; [congruence|]. split; [rewrite Ht2, Ht1, app_assoc; reflexivity|].
    rewrite !count_calls_app, statements_app, Hn1, Hx1, Hn2, Hx2, Hs1. simpl.
    split; [lia|]. split; [reflexivity|]. split; [exact Hst2|].
    split; [exact Hok2|].
    split.
    { intros v Hv. destruct (Hsel2 v Hv) as [Hy Hn]. split; [|exact Hn].
      intros Hs. destruct (Hy Hs) as (rows & cur & -> & Hin).
      exists rows, cur. split; [reflexivity|]. apply in_or_app. auto. }
    intros e ->. right. destruct (Herr2 e eq_refl) as [[Hnone _] | Hlast].
    + specialize (Ho1 eq_refl). unfold handle_open in Ho1.
      rewrite <- Hc1, Hnone in Ho1. discriminate.
    + rewrite Ht2. apply last_raised_app. exact Hlast.
  - (* the handle did not answer: one [connect] *)
    unfold mbind at 1. unfold reconnect_guard. simpl. unfold mbind at 1.
    destruct (connect_run json_loads drv s1)
      as (again & s2 & evs2 & Hrun2 & He2 & Ht2 & Hn2 & _ & Hx2 & Hs2 & Hopen2 & Hshut2).
    rewrite Hrun2. apply statements_none in Hs2.
    destruct again; simpl.
    + assert (Hsome : connection s2 <> None).
      { destruct (handle_open drv s1) eqn:Ho.
        - destruct (Hopen2 eq_refl) as [_ ->].
          unfold handle_open in Ho. destruct (connection s1); congruence.
        - destruct (Hshut2 eq_refl) as (Hcfg & Hraise & Hfresh).
          destruct (get_connection_params json_loads (environ s1)) as [e|p] eqn:Hp.
          + destruct (Hcfg e eq_refl) as [[=] _].
          + destruct (existsb raised evs2) eqn:Hev.
            * destruct (Hraise eq_refl) as [[=] _].
            * destruct (Hfresh eq_refl p eq_refl) as (c & _ & _ & _ & -> & _).
              discriminate. }
      destruct (send_statement_cases query params s2)
        as (r & s3 & evs3 & Hrun3 & Hc3 & He3 & Ht3 & Hn3 & Hx3 & Hst3 & Hok3 & Hsel3 & Herr3).
      exists r, s3, (evs1 ++ evs2 ++ evs3).
      split; [rewrite Hrun3; destruct r; reflexivity|].
      split; [congruence|].
      split; [rewrite Ht3, Ht2, Ht1, <- !app_assoc; reflexivity|].
      rewrite !count_calls_app, !statements_app, Hn1, Hx1, Hx2, Hn3, Hx3, Hs1, Hs2.
      simpl. split; [lia|]. split; [reflexivity|]. split; [exact Hst3|].
      split; [exact Hok3|].
      split.
      { intros v Hv. destruct (Hsel3 v Hv) as [Hy Hn]. split; [|exact Hn].
        intros Hs. destruct (Hy Hs) as (rows & cur & -> & Hin).
        exists rows, cur. split; [reflexivity|].
        apply in_or_app. right. apply in_or_app. auto. }
      intros e ->. right. destruct (Herr3 e eq_refl) as [[Hnone _] | Hlast].
      * congruence.
      * rewrite Ht3. apply last_raised_app. exact Hlast.
    + exists (inl reconnect_failed), s2, (evs1 ++ evs2).
      split; [reflexivity|]. split; [congruence|].
      split; [rewrite Ht2, Ht1, app_assoc; reflexivity|].
      rewrite !count_calls_app, statements_app, Hn1, Hx1, Hx2, Hs1, Hs2. simpl.
      split; [lia|]. split; [reflexivity|]. split; [auto|].
      split; [discriminate|]. split; [discriminate|]. intros e [= <-]. auto.
Qed.


(** X6. An exception that comes out of [execute_query] is either the
    reconnect error or the very exception the last driver call of the run
    raised, unchanged: nothing is wrapped or replaced, and the
    [AttributeError] of an absent handle cannot occur. *)
Theorem execute_query_error_origin query params (st : mstate W) e st' :
  execute_query json_loads drv query params st = (inl e, st') ->
  e = reconnect_failed \/ exists t0 c, trace st' = t0 ++ [(c, Raised e)].
Proof.
  intros H.
  destruct (execute_query_run query params st)
    as (r & s & evs & Hrun & _ & _ & _ & _ & _ & _ & _ & Herr).
  rewrite H in Hrun. injection Hrun as <- <-. exact (Herr e eq_refl).
Qed.

(** X7. When the probe of [is_connected] fails on a handle whose flag
    still says open, the reconnect of [execute_query] reconnects nothing:
    [connect] answers true at once, no connection is attempted, and the
    statement is sent on the same handle. *)
Theorem execute_query_reuses_stale_handle query params (st st1 : mstate W) :
  is_connected drv st = (inr false, st1) ->
  handle_open drv st1 = true ->
  exists r st' evs,
    execute_query json_loads drv query params st = (r, st') /\
    send_statement drv query params st1 = (r, st') /\
    connection st' = connection st /\
    trace st' = trace st ++ evs /\
    count_calls is_connect evs = 0%nat.
Proof.
  intros Halive Hopen.
  destruct (is_connected_run drv st)
    as (alive & s1 & evs1 & Hrun1 & (Hc1 & _ & Ht1) & Hn1 & _).
  rewrite Halive in Hrun1. injection Hrun1 as <- <-.
  destruct (connect_run json_loads drv st1)
    as (b & s2 & evs2 & Hrun2 & _ & _ & _ & _ & _ & _ & H & _).
  destruct (H Hopen) as [-> ->].
  destruct (send_statement_cases query params st1)
    as (r & s3 & evs3 & Hrun3 & Hc3 & _ & Ht3 & Hn3 & _).
  exists r, s3, (evs1 ++ evs3).
  split.
  { unfold execute_query, mcatch. rewrite execute_query_body_eq.
    unfold mbind at 1. rewrite Halive.
    unfold mbind at 1. unfold reconnect_guard. simpl.
    unfold mbind at 1. rewrite Hrun2. simpl.
    rewrite Hrun3. destruct r; reflexivity. }
  split; [exact Hrun3|]. split; [congruence|].
  split; [rewrite Ht3, Ht1, app_assoc; reflexivity|].
  rewrite count_calls_app, Hn1, Hn3. reflexivity.
Qed.

End ManagerOnTheWire.

Lemma execute_query_error_origin_witness :
  exists t0 c,
    trace (execute_query Json.loads Sim.driver "DROP TABLE t" None stale).2 =
    t0 ++ [(c, Raised (OperationalError "server closed the connection unexpectedly"))].
Proof.
  destruct (execute_query_error_origin Json.loads Sim.driver "DROP TABLE t" None stale
              (OperationalError "server closed the connection unexpectedly")
              (execute_query Json.loads Sim.driver "DROP TABLE t" None stale).2)
    as [Hre | Hlast].
  - vm_compute. reflexivity.
  - discriminate Hre.
  - exact Hlast.
Defined.

Lemma execute_query_reuses_stale_handle_witness :
  exists r st' evs,
    execute_query Json.loads Sim.driver "DROP TABLE t" None stale = (r, st') /\
    send_statement Sim.driver "DROP TABLE t" None (is_connected Sim.driver stale).2
      = (r, st') /\
    connection st' = connection stale /\
    trace st' = trace stale ++ evs /\
    count_calls is_connect evs = 0%nat.
Proof.
  apply (execute_query_reuses_stale_handle Json.loads Sim.driver "DROP TABLE t" None
           stale (is_connected Sim.driver stale).2).
  - vm_compute. reflexivity.
  - vm_compute. reflexivity.
Defined.

(** ** Which queries are read *)

Lemma upper_char_space a : Py.is_space (Py.upper_char a) = Py.is_space a.
Proof. destruct a as [[] [] [] [] [] [] [] []]; vm_compute; reflexivity. Qed.

Lemma upper_char_idem a : Py.upper_char (Py.upper_char a) = Py.upper_char a.
Proof. destruct a as [[] [] [] [] [] [] [] []]; vm_compute; reflexivity. Qed.

Lemma upper_idem s : Py.upper (Py.upper s) = Py.upper s.
Proof.
  induction s as [|a s IH]; simpl; [reflexivity|].
  rewrite upper_char_idem, IH. reflexivity.
Qed.

Lemma lstrip_upper s : Py.lstrip (Py.upper s) = Py.upper (Py.lstrip s).
Proof.
  induction s as [|a s IH]; simpl; [reflexivity|].
  rewrite upper_char_space. destruct (Py.is_space a); [exact IH | reflexivity].
Qed.

Lemma rstrip_upper s : Py.rstrip (Py.upper s) = Py.upper (Py.rstrip s).
Proof.
  induction s as [|a s IH]; simpl; [reflexivity|].
  rewrite IH, upper_char_space.
  destruct (Py.rstrip s); simpl; [destruct (Py.is_space a)|]; reflexivity.
Qed.

Lemma startswith_rstrip p : forall s,
  no_space p = true -> Py.startswith (Py.rstrip s) p = Py.startswith s p.
Proof.
  induction p as [|b p IH]; intros s Hp.
  - destruct s, (Py.rstrip _); reflexivity.
  - simpl in Hp. apply andb_true_iff in Hp as [Hb Hp].
    apply negb_true_iff in Hb.
    destruct s as [|a s]; [reflexivity|].
    simpl. specialize (IH s Hp).
    destruct (Py.rstrip s) as [|c r] eqn:Hr.
    + destruct (Py.is_space a) eqn:Ha; simpl.
      * destruct (Ascii.eqb_spec a b) as [->|]; [congruence | reflexivity].
      * rewrite <- IH. reflexivity.
    + simpl. simpl in IH. rewrite <- IH. reflexivity.
Qed.



(** ** The endpoints *)

(** X14. The read-only endpoints never show the secret: the responses of
    [root], [config_info] and [environment_info] are the same for any two
    values of [DATABASE_URL] that are not empty, and only tell whether one is
    set. *)
Theorem endpoints_hide_secret (env : gmap string string) (s1 s2 : string) :
  s1 <> EmptyString -> s2 <> EmptyString ->
  root (<["DATABASE_URL" := s1]> env) = root (<["DATABASE_URL" := s2]> env) /\
  config_info (<["DATABASE_URL" := s1]> env) =
    config_info (<["DATABASE_URL" := s2]> env) /\
  environment_info (<["DATABASE_URL" := s1]> env) =
    environment_info (<["DATABASE_URL" := s2]> env).
Proof.
  intros H1 H2. unfold root, config_info, environment_info.
  rewrite !lookup_insert_eq.
  rewrite !(lookup_insert_ne _ "DATABASE_URL") by discriminate.
  simpl. rewrite (truthy_nonempty _ H1), (truthy_nonempty _ H2).
  auto.
Qed.

Lemma endpoints_hide_secret_witness :
  config_info (<["DATABASE_URL" := secret_u_p]> scenario_env) =
  config_info (<["DATABASE_URL" := "x"]> scenario_env).
Proof.
  apply (endpoints_hide_secret scenario_env secret_u_p "x"); discriminate.
Defined.

Section Endpoints.

Context {W : Type}.
Variable json_loads : string -> string + json.
Variable drv : Driver W.

(** X9. [status_check] never raises and reports the answer of one
    [connect]: connected with no error, or not connected with the fixed text
    of the handler, never the cause. With a stored handle whose flag says
    open it reports connected without a single driver call. *)
Theorem status_check_reports (st : mstate W) :
  exists connected st',
    connect json_loads drv st = (inr connected, st') /\
    status_check json_loads drv st =
      (inr (status_response connected
              (if connected then VNone else VStr msg_status_failed)
              (environ st)),
       st') /\
    (handle_open drv st = true -> connected = true /\ st' = st).
Proof.
  destruct (connect_run json_loads drv st)
    as (b & st' & evs & Hrun & Henv & _ & _ & _ & _ & _ & Hopen & _).
  exists b, st'. split; [exact Hrun|]. split; [|exact Hopen].
  unfold status_check, mbind, mcatch, read, mret. rewrite Hrun.
  destruct b; simpl; rewrite Henv; reflexivity.
Qed.

End Endpoints.

Lemma db_test_statements_not_probes :
  is_probe_stmt create_sql None = false /\
  is_probe_stmt insert_sql insert_params = false /\
  is_probe_stmt select_sql None = false /\
  is_probe_stmt drop_sql None = false.
Proof. repeat split; reflexivity. Qed.

Section DatabaseTest.

Context {W : Type}.
Variable json_loads : string -> string + json.
Variable drv : Driver W.

(** One [execute_query] of [database_test], as the handler sees it. *)
Lemma manager_execute_query query params (s : mstate W) :
  is_probe_stmt query params = false ->
  exists r s' evs,
    manager (execute_query json_loads drv query params) s = (r, s') /\
    trace s' = trace s ++ evs /\
    count_calls is_close_conn evs = 0%nat /\
    match r with
    | inr v =>
        statements evs = [(query, params)] /\
        (is_select query = true ->
         exists rows cur, v = Some rows /\ In (Fetchall cur, GaveRows rows) evs)
    | inl he =>
        (statements evs = [] \/ statements evs = [(query, params)]) /\
        exists e, he = FromManager e /\ from_driver e s'
    end.
Proof.
  intros Hq.
  destruct (execute_query_run json_loads drv query params s)
    as (r & s' & evs & Hrun & _ & Htr & _ & Hx & Hst & Hok & Hsel & Herr).
  unfold manager. rewrite Hrun.
  destruct r as [e|v].
  - exists (inl (FromManager e)), s', evs.
    split; [reflexivity|]. split; [exact Htr|]. split; [exact Hx|].
    split; [exact Hst|].
    exists e. split; [reflexivity | exact (Herr e eq_refl)].
  - exists (inr v), s', evs.
    split; [reflexivity|]. split; [exact Htr|]. split; [exact Hx|].
    split; [exact (Hok v eq_refl Hq) | exact (proj1 (Hsel v eq_refl))].
Qed.

Lemma database_test_error e (st' : mstate W) :
  (if is_pg_error e
   then (inl (db_test_unavailable e), st')
   else (inl (db_test_failed (FromManager e)), st')) =
  (@inl http_exception value (db_test_error e), st').
Proof. unfold db_test_error. destruct (is_pg_error e); reflexivity. Qed.

(** Every run of [database_test], by cases. *)
Lemma database_test_run (st : mstate W) :
  exists res st' evs,
    database_test json_loads drv st = (res, st') /\
    trace st' = trace st ++ evs /\
    count_calls is_close_conn evs = 0%nat /\
    statements evs `prefix_of` db_test_statements /\
    (forall v, res = inr v ->
       statements evs = db_test_statements /\
       exists rows cur,
         In (Fetchall cur, GaveRows rows) evs /\ v = db_test_ok (length rows)) /\
    (forall err, res = inl err ->
       (err = db_test_failed Unavailable /\
        connect json_loads drv st = (inr false, st') /\ statements evs = []) \/
       (exists e, from_driver e st' /\ err = db_test_error e)).
Proof.
  destruct db_test_statements_not_probes as (Hq1 & Hq2 & Hq3 & Hq4).
  unfold database_test, database_test_body, hbind.
  destruct (connect_run json_loads drv st)
    as (b & s0 & ev0 & Hrun0 & _ & Ht0 & _ & _ & Hx0 & Hs0 & _).
  apply statements_none in Hs0.
  unfold manager at 1. rewrite Hrun0.
  destruct b; simpl.
  2:{ exists (inl (db_test_failed Unavailable)), s0, ev0.
      split; [reflexivity|]. split; [exact Ht0|]. split; [exact Hx0|].
      rewrite Hs0. split; [apply prefix_nil|]. split; [discriminate|].
      intros err [= <-]. left. auto. }
  destruct (manager_execute_query create_sql None s0 Hq1)
    as (r1 & s1 & ev1 & Hrun1 & Ht1 & Hx1 & H1).
  rewrite Hrun1. destruct r1 as [he1|v1].
  { destruct H1 as (Hst1 & e & -> & Hfrom).
    rewrite database_test_error.
    exists (inl (db_test_error e)), s1, (ev0 ++ ev1).
    split; [reflexivity|]. split; [rewrite Ht1, Ht0, app_assoc; reflexivity|].
    rewrite count_calls_app, statements_app, Hx0, Hx1, Hs0. simpl.
    split; [reflexivity|].
    split; [destruct Hst1 as [-> | ->];
            [apply prefix_nil | exists (tail db_test_statements); reflexivity]|].
    split; [discriminate|]. intros err [= <-]. right. eauto. }
  destruct H1 as (Hst1 & _).
  destruct (manager_execute_query insert_sql insert_params s1 Hq2)
    as (r2 & s2 & ev2 & Hrun2 & Ht2 & Hx2 & H2).
  rewrite Hrun2. destruct r2 as [he2|v2].
  { destruct H2 as (Hst2 & e & -> & Hfrom).
    rewrite database_test_error.
    exists (inl (db_test_error e)), s2, (ev0 ++ ev1 ++ ev2).
    split; [reflexivity|].
    split; [rewrite Ht2, Ht1, Ht0, <- !app_assoc; reflexivity|].
    rewrite !count_calls_app, !statements_app, Hx0, Hx1, Hx2, Hs0, Hst1. simpl.
    split; [reflexivity|].
    split; [destruct Hst2 as [-> | ->];
            [exists (tail db_test_statements); reflexivity
            | exists (tail (tail db_test_statements)); reflexivity]|].
    split; [discriminate|]. intros err [= <-]. right. eauto. }
  destruct H2 as (Hst2 & _).
  destruct (manager_execute_query select_sql None s2 Hq3)
    as (r3 & s3 & ev3 & Hrun3 & Ht3 & Hx3 & H3).
  rewrite Hrun3. destruct r3 as [he3|v3].
  { destruct H3 as (Hst3 & e & -> & Hfrom).
    rewrite database_test_error.
    exists (inl (db_test_error e)), s3, (ev0 ++ ev1 ++ ev2 ++ ev3).
    split; [reflexivity|].
    split; [rewrite Ht3, Ht2, Ht1, Ht0, <- !app_assoc; reflexivity|].
    rewrite !count_calls_app, !statements_app, Hx0, Hx1, Hx2, Hx3, Hs0, Hst1, Hst2.
    simpl. split; [reflexivity|].
    split; [destruct Hst3 as [-> | ->];
            [exists (tail (tail db_test_statements)); reflexivity
            | exists [(drop_sql, None)]; reflexivity]|].
    split; [discriminate|]. intros err [= <-]. right. eauto. }
  destruct H3 as (Hst3 & Hrows).
  destruct (Hrows eq_refl) as (rows & cur & -> & Hin).
  unfold len_rows, hret.
  destruct (manager_execute_query drop_sql None s3 Hq4)
    as (r4 & s4 & ev4 & Hrun4 & Ht4 & Hx4 & H4).
  rewrite Hrun4. destruct r4 as [he4|v4].
  { destruct H4 as (Hst4 & e & -> & Hfrom).
    rewrite database_test_error.
    exists (inl (db_test_error e)), s4, (ev0 ++ ev1 ++ ev2 ++ ev3 ++ ev4).
    split; [reflexivity|].
    split; [rewrite Ht4, Ht3, Ht2, Ht1, Ht0, <- !app_assoc; reflexivity|].
    rewrite !count_calls_app, !statements_app, Hx0, Hx1, Hx2, Hx3, Hx4,
      Hs0, Hst1, Hst2, Hst3.
    simpl. split; [reflexivity|].
    split; [destruct Hst4 as [-> | ->];
            [exists [(drop_sql, None)]; reflexivity
            | exists []; reflexivity]|].
    split; [discriminate|]. intros err [= <-]. right. eauto. }
  destruct H4 as (Hst4 & _).
  exists (inr (db_test_ok (length rows))), s4, (ev0 ++ ev1 ++ ev2 ++ ev3 ++ ev4).
  split; [reflexivity|].
  split; [rewrite Ht4, Ht3, Ht2, Ht1, Ht0, <- !app_assoc; reflexivity|].
  rewrite !count_calls_app, !statements_app, Hx0, Hx1, Hx2, Hx3, Hx4,
    Hs0, Hst1, Hst2, Hst3, Hst4.
  simpl. split; [reflexivity|]. split; [exists []; reflexivity|].
  split; [|discriminate].
  intros v [= <-]. split; [reflexivity|].
  exists rows, cur. split; [|reflexivity].
  apply in_or_app. right. apply in_or_app. right. apply in_or_app. right.
  apply in_or_app. left. exact Hin.
Qed.

(** X10. When [connect] answers false, [database_test] does not answer
    503: the 503 it raises inside its own [try] block is caught by the
    handler for any exception and comes out as 500, carrying the text of
    that 503 as its message. No statement has been sent by then. *)
Theorem database_test_connect_failure (st st' : mstate W) :
  connect json_loads drv st = (inr false, st') ->
  database_test json_loads drv st = (inl (db_test_failed Unavailable), st') /\
  status_code (db_test_failed Unavailable) = 500.
Proof.
  intros H. split; [|reflexivity].
  unfold database_test, database_test_body, hbind.
  unfold manager at 1. rewrite H. reflexivity.
Qed.

(** X11. When [database_test] returns, all four statements were sent, in
    order, and the body is the success record: connected, four results, the
    third giving the number of rows the SELECT fetched in this run. *)
Theorem database_test_success (st : mstate W) v st' :
  database_test json_loads drv st = (inr v, st') ->
  exists evs rows cur,
    trace st' = trace st ++ evs /\
    statements evs = db_test_statements /\
    In (Fetchall cur, GaveRows rows) evs /\
    v = db_test_ok (length rows).
Proof.
  intros H.
  destruct (database_test_run st)
    as (res & s & evs & Hrun & Htr & _ & _ & Hok & _).
  rewrite H in Hrun. injection Hrun as <- <-.
  destruct (Hok v eq_refl) as (Hst & rows & cur & Hin & ->).
  exists evs, rows, cur. auto.
Qed.


(** X13. A failure of [database_test] after [connect] answered true is
    made of the exception of one [execute_query]: the reconnect error or the
    exception of the last driver call. It is a 503 when that exception is a
    driver error and a 500 otherwise; the [TypeError] of taking the length of
    no rows cannot occur, since the SELECT always returns a list. *)
Theorem database_test_failure (st : mstate W) err st' :
  database_test json_loads drv st = (inl err, st') ->
  (err = db_test_failed Unavailable /\
   connect json_loads drv st = (inr false, st')) \/
  (exists e,
      (e = reconnect_failed \/ exists t0 c, trace st' = t0 ++ [(c, Raised e)]) /\
      err = (if is_pg_error e then db_test_unavailable e
             else db_test_failed (FromManager e)) /\
      status_code err = (if is_pg_error e then 503 else 500)).
Proof.
  intros H.
  destruct (database_test_run st)
    as (res & s & evs & Hrun & _ & _ & _ & _ & Herr).
  rewrite H in Hrun. injection Hrun as <- <-.
  destruct (Herr err eq_refl) as [(-> & Hc & _) | (e & Hfrom & ->)].
  - left. auto.
  - right. exists e. split; [exact Hfrom|].
    unfold db_test_error. destruct (is_pg_error e); auto.
Qed.

End DatabaseTest.

Lemma database_test_connect_failure_witness :
  database_test Json.loads Sim.driver Sim.down =
    (inl (db_test_failed Unavailable), (connect Json.loads Sim.driver Sim.down).2).
Proof.
  apply (database_test_connect_failure Json.loads Sim.driver Sim.down).
  vm_compute. reflexivity.
Defined.

Lemma database_test_success_witness :
  exists evs rows cur,
    trace (database_test Json.loads Sim.driver Sim.up).2 = trace Sim.up ++ evs /\
    statements evs = db_test_statements /\
    In (Fetchall cur, GaveRows rows) evs /\
    db_test_ok 2 = db_test_ok (length rows).
Proof.
  apply (database_test_success Json.loads Sim.driver Sim.up (db_test_ok 2)).
  vm_compute. reflexivity.
Defined.

Lemma database_test_failure_witness :
  exists e,
    database_test Json.loads Sim.driver stale =
      (inl (db_test_unavailable e), (database_test Json.loads Sim.driver stale).2) /\
    is_pg_error e = true.
Proof.
  destruct (database_test_failure Json.loads Sim.driver stale
              (db_test_unavailable
                 (OperationalError "server closed the connection unexpectedly"))
              (database_test Json.loads Sim.driver stale).2)
    as [[Hbad _] | (e & _ & _ & _)].
  - vm_compute. reflexivity.
  - discriminate Hbad.
  - exists (OperationalError "server closed the connection unexpectedly").
    split; vm_compute; reflexivity.
Defined.

Section Lifespan.

Context {W : Type}.
Variable json_loads : string -> string + json.
Variable drv : Driver W.

(** X15. The two ends of [lifespan]. Startup never raises: it makes one
    [connect] and goes on whatever the answer, so the process starts with the
    database down. Shutdown has no handler: it raises exactly when the stored
    handle's flag says open and the driver's close raises, and the exception
    is the driver's own; the reference stays stored. *)
Theorem lifespan_edges (st : mstate W) :
  (exists b st',
      connect json_loads drv st = (inr b, st') /\
      startup json_loads drv st = (inr tt, st')) /\
  (forall e st',
      shutdown drv st = (inl e, st') <->
      exists c w,
        connection st = Some c /\
        conn_closed drv c (world st) = false /\
        conn_close drv c (world st) = (inl e, w) /\
        st' = MState (Some c) w (environ st)
                (trace st ++ [(CloseConn c, Raised e)])).
Proof.
  split.
  - destruct (connect_run json_loads drv st) as (b & st' & evs & Hrun & _).
    exists b, st'. split; [exact Hrun|].
    unfold startup, mcatch, mbind. rewrite Hrun. reflexivity.
  - intros e st'. unfold shutdown, close, mbind, read, handle_open, do_close,
      driver_call, mret, mraise.
    destruct st as [[c|] w env t]; simpl.
    + destruct (conn_closed drv c w) eqn:Hclosed; simpl.
      * split; [discriminate|].
        intros (c' & w' & Hc & Hcl & _). injection Hc as <-. congruence.
      * destruct (conn_close drv c w) as [[e0|[]] w0] eqn:Hclose; simpl.
        -- split.
           ++ intros [= <- <-]. exists c, w0. auto.
           ++ intros (c' & w' & Hc & _ & Hcl & ->). injection Hc as <-.
              rewrite Hclose in Hcl. injection Hcl as <- <-. reflexivity.
        -- split; [discriminate|].
           intros (c' & w' & Hc & _ & Hcl & _). injection Hc as <-.
           rewrite Hclose in Hcl. discriminate.
    + split; [discriminate|]. intros (c' & w' & Hc & _). discriminate.
Qed.

End Lifespan.

Lemma is_connected_true_iff_witness :
  is_connected Sim.driver held_odd =
    (inr true, (is_connected Sim.driver held_odd).2).
Proof.
  destruct (is_connected_true_iff Sim.driver held_odd)
    as (b & st' & evs & Hrun & Htr & _ & _ & Hrow).
  assert (Hst : st' = (is_connected Sim.driver held_odd).2)
    by (rewrite Hrun; reflexivity).
  assert (Hevs : evs = probe_calls 0%nat 0%nat (Some [SqlInt 2])).
  { rewrite Hst in Htr. vm_compute in Htr. symmetry. exact Htr. }
  rewrite (Hrow 0%nat 0%nat (Some [SqlInt 2]) eq_refl Hevs) in Hrun.
  rewrite Hrun. reflexivity.
Defined.
